(** * send_sensor_data.py: replay of a timestamped sensor log into Pub/Sub

    A shallow embedding of
    [courses/data-engineering/demos/sandiego_dataflow_sql/publish/send_sensor_data.py].

    - Python [int] is [Z]; Python [float] is IEEE binary64, taken from the
      Standard Library's [SpecFloat] (53-bit mantissa, exponent bound 1024).
    - [bytes] and [str] are [string]; a [str] is represented by its UTF-8
      encoding, so [bytes.decode('utf-8')] validates and returns the same
      characters.
    - [datetime] and [timedelta] follow CPython's [datetime] module on naive
      values.
    - Effects (wall clock, input file, stdout, logging, Pub/Sub, sleeping) are
      threaded through an explicit [world]; Python exceptions are the [Raise]
      outcome of the monad [M].
    - The environment: the input file opens and decompresses; the Pub/Sub
      service answers (a topic is found or else created, a message handed
      to the client is accepted); [time.sleep] refuses the durations its
      runtime refuses, which is part of the library interface [PyLib]. *)

From Stdlib Require Import ZArith List String Ascii Bool Lia.
From Stdlib Require Import Floats.SpecFloat.
Import ListNotations.

Local Open Scope string_scope.
Local Open Scope list_scope.
Local Open Scope Z_scope.

(** ** Python exceptions and outcomes *)

Inductive exn : Type :=
| IndexError
| KeyError
| ValueError
| UnicodeDecodeError
| ZeroDivisionError
| OverflowError
| OSError.

Inductive result (A : Type) : Type :=
| Ret (a : A)
| Raise (e : exn).

Arguments Ret {A} a.
Arguments Raise {A} e.

Definition bytes := string.
Definition str := string.

(** ** [datetime]: naive date-times and their differences *)

Module Datetime.

Record datetime : Type := mkdatetime {
  year : Z; month : Z; day : Z;
  hour : Z; minute : Z; second : Z; microsecond : Z
}.

(** A [timedelta] in normal form: [0 <= seconds < 86400] and
    [0 <= microseconds < 1000000]; only [days] carries a sign. *)
Record timedelta : Type := mktimedelta {
  days : Z; seconds : Z; microseconds : Z
}.

Definition _is_leap (y : Z) : bool :=
  (y mod 4 =? 0) && (negb (y mod 100 =? 0) || (y mod 400 =? 0)).

Definition _days_before_year (y : Z) : Z :=
  let y1 := y - 1 in
  y1 * 365 + y1 / 4 - y1 / 100 + y1 / 400.

Definition _DAYS_IN_MONTH : list Z :=
  [-1; 31; 28; 31; 30; 31; 30; 31; 31; 30; 31; 30; 31].

Definition _days_in_month (y m : Z) : Z :=
  if (m =? 2) && _is_leap y then 29
  else nth (Z.to_nat m) _DAYS_IN_MONTH 0.

Definition _DAYS_BEFORE_MONTH : list Z :=
  [-1; 0; 31; 59; 90; 120; 151; 181; 212; 243; 273; 304; 334].

Definition _days_before_month (y m : Z) : Z :=
  nth (Z.to_nat m) _DAYS_BEFORE_MONTH 0
  + (if (2 <? m) && _is_leap y then 1 else 0).

Definition _ymd2ord (y m d : Z) : Z :=
  _days_before_year y + _days_before_month y m + d.

Definition toordinal (t : datetime) : Z :=
  _ymd2ord (year t) (month t) (day t).

(** [timedelta(days, seconds, microseconds)] on integers: the carries of
    the constructor, written with Python's floor [divmod]. *)
Definition mk_timedelta (d0 s0 us0 : Z) : timedelta :=
  (* seconds argument *)
  let d := d0 + s0 / 86400 in
  let s := s0 mod 86400 in
  (* microseconds argument *)
  let secs := us0 / 1000000 in
  let us := us0 mod 1000000 in
  let d := d + secs / 86400 in
  let s := s + secs mod 86400 in
  (* a little bit of carrying *)
  let d := d + s / 86400 in
  let s := s mod 86400 in
  mktimedelta d s us.

(** [datetime.__sub__] between two naive date-times. *)
Definition sub (a b : datetime) : timedelta :=
  let days1 := toordinal a in
  let days2 := toordinal b in
  let secs1 := second a + minute a * 60 + hour a * 3600 in
  let secs2 := second b + minute b * 60 + hour b * 3600 in
  mk_timedelta (days1 - days2) (secs1 - secs2)
               (microsecond a - microsecond b).

(** The constructor's range check: [datetime(...)] raises [ValueError]
    outside these bounds. *)
Definition valid (t : datetime) : bool :=
  (1 <=? year t) && (year t <=? 9999)
  && (1 <=? month t) && (month t <=? 12)
  && (1 <=? day t) && (day t <=? _days_in_month (year t) (month t))
  && (0 <=? hour t) && (hour t <=? 23)
  && (0 <=? minute t) && (minute t <=? 59)
  && (0 <=? second t) && (second t <=? 59)
  && (0 <=? microsecond t) && (microsecond t <=? 999999).

(** Reference quantity: the instant of [t] in microseconds on the
    proleptic Gregorian time line.  Not used by the program. *)
Definition instant_us (t : datetime) : Z :=
  ((toordinal t * 86400
    + (second t + minute t * 60 + hour t * 3600)) * 1000000)
  + microsecond t.

End Datetime.

Import Datetime.

(** ** Python [float] *)

Module Float.

Definition prec : Z := 53.
Definition emax : Z := 1024.

Definition float : Type := spec_float.

(** [float(n)] for an [int] (exact below 2^53). *)
Definition of_int (n : Z) : float := binary_normalize prec emax n 0 false.

Definition inf : float := S754_infinity false.
Definition nan : float := S754_nan.

Definition is_zero (x : float) : bool :=
  match x with S754_zero _ => true | _ => false end.

(** [x / y]: Python raises [ZeroDivisionError] when [y == 0.0]. *)
Definition truediv (x y : float) : result float :=
  if is_zero y then Raise ZeroDivisionError
  else Ret (SFdiv prec emax x y).

Definition sub (x y : float) : float := SFsub prec emax x y.

Definition mul (x y : float) : float := SFmul prec emax x y.

(** [x > y] *)
Definition gt (x y : float) : bool := SFltb y x.

(** [x < y] *)
Definition lt (x y : float) : bool := SFltb x y.

(** [x <= y] *)
Definition le (x y : float) : bool := SFleb x y.

Definition eqb (x y : float) : bool := SFeqb x y.

Definition is_nan (x : float) : bool :=
  match x with S754_nan => true | _ => false end.

End Float.

Definition float : Type := Float.float.

(** [int(x)] for a float [x]: truncation toward zero. *)
Definition float_trunc (x : float) : result Z :=
  match x with
  | S754_zero _ => Ret 0
  | S754_finite s m e =>
      let mag := if 0 <=? e then Z.shiftl (Zpos m) e else Z.shiftr (Zpos m) (- e) in
      Ret (if s then - mag else mag)
  | S754_infinity _ => Raise OverflowError
  | S754_nan => Raise ValueError
  end.

(** ** Python values and dictionaries *)

Inductive pyval : Type :=
| VStr (s : str)
| VFloat (x : float)
| VInt (n : Z).

(** A [dict] with [str] keys, in insertion order. *)
Definition dict : Type := list (str * pyval).

Fixpoint dict_getitem (d : dict) (k : str) : result pyval :=
  match d with
  | [] => Raise KeyError
  | (k', v) :: d' => if String.eqb k' k then Ret v else dict_getitem d' k
  end.

Fixpoint dict_setitem (d : dict) (k : str) (v : pyval) : dict :=
  match d with
  | [] => [(k, v)]
  | (k', v') :: d' =>
      if String.eqb k' k then (k', v) :: d' else (k', v') :: dict_setitem d' k v
  end.

(** [dict(zip(keys, values))] for pairwise distinct [keys]. *)
Definition dict_of_zip (keys : list str) (values : list str) : dict :=
  map (fun kv => (fst kv, VStr (snd kv))) (combine keys values).

(** [s.split(sep)] for a one-character separator. *)
Fixpoint split (sep : ascii) (s : str) : list str :=
  match s with
  | EmptyString => [EmptyString]
  | String c s' =>
      if Ascii.eqb c sep then EmptyString :: split sep s'
      else match split sep s' with
           | [] => [String c EmptyString]
           | h :: t => String c h :: t
           end
  end.

(** [events[i]] *)
Definition list_getitem {A : Type} (l : list A) (i : nat) : result A :=
  match nth_error l i with
  | Some a => Ret a
  | None => Raise IndexError
  end.

(** ** The library surface the script relies on

    Text conversions of the Python runtime are taken as an interface; the
    script is defined, and its properties proved, for every implementation
    of it.  [PyRef] below gives an executable one.  [json_text] is the type
    of JSON documents, the [str] values returned by [json.dumps]. *)

Class JsonText : Type := json_text : Type.

(** What [time.sleep] raises when it refuses a duration. *)
Inductive sleep_exn : Type :=
| SleepValueError
| SleepOverflowError
| SleepOSError.

Definition exn_of_sleep (e : sleep_exn) : exn :=
  match e with
  | SleepValueError => ValueError
  | SleepOverflowError => OverflowError
  | SleepOSError => OSError
  end.

Class PyLib {J : JsonText} : Type := {
  (** [b.decode('utf-8')]; [None] is [UnicodeDecodeError] *)
  decode_utf8 : bytes -> option str;
  (** [datetime.datetime.strptime(s, fmt)]; [None] is [ValueError] *)
  strptime : str -> str -> option datetime;
  (** [float(s)] for a [str]; [None] is [ValueError] *)
  float_of_str : str -> option float;
  (** [int(s)] for a [str]; [None] is [ValueError] *)
  int_of_str : str -> option Z;
  json_dumps : dict -> json_text;
  (** [json.loads(s)]; [None] is [json.JSONDecodeError], a [ValueError] *)
  json_loads : json_text -> option dict;
  (** [time.sleep(secs)] for a float: [None] when the call sleeps and
      returns, otherwise what it raises.  Which durations are refused is
      the runtime's and the platform's: CPython refuses NaN and negative
      durations with [ValueError] and those beyond its nanosecond counter
      (some 292 years) with [OverflowError]; the operating system can
      refuse one close to that bound with [OSError]. *)
  sleep_error : float -> option sleep_exn
}.

Definition of_option {A : Type} (e : exn) (o : option A) : result A :=
  match o with
  | Some a => Ret a
  | None => Raise e
  end.

Section Script.

Context {J : JsonText}.

(** ** Observable effects *)

Inductive log_record : Type :=
| LogPublishing (numobs : Z) (timestamp : pyval)
| LogSleeping (secs : float)
| LogReusingTopic (topic : str)
| LogCreatingTopic (topic : str)
| LogSendingFrom (firstObsTime : datetime).

Inductive effect : Type :=
| Print (s : json_text)
| LoggingInfo (r : log_record)
| PublisherPublish (topic : str) (data : json_text)
| PublisherCreateTopic (topic : str)
| TimeSleep (secs : float).

(** The open input file: what [readline] returns, line by line (each line
    with its terminator), and the current position. *)
Record file : Type := mkfile {
  flines : list bytes;
  fpos : nat
}.

Record world : Type := mkworld {
  (** the successive values of [datetime.datetime.utcnow()] *)
  w_clock : nat -> datetime;
  w_ticks : nat;
  (** the topics known to the Pub/Sub service *)
  w_topics : list str;
  (** the decompressed content of the input file, as opened by
      [gzip.open(INPUT, 'rb')] *)
  w_ifp : file;
  (** what the run has done so far, oldest first *)
  w_trace : list effect
}.

Definition set_ticks (n : nat) (w : world) : world :=
  mkworld (w_clock w) n (w_topics w) (w_ifp w) (w_trace w).

Definition set_topics (t : list str) (w : world) : world :=
  mkworld (w_clock w) (w_ticks w) t (w_ifp w) (w_trace w).

Definition set_fpos (p : nat) (w : world) : world :=
  mkworld (w_clock w) (w_ticks w) (w_topics w)
          (mkfile (flines (w_ifp w)) p) (w_trace w).

Definition add_trace (e : effect) (w : world) : world :=
  mkworld (w_clock w) (w_ticks w) (w_topics w) (w_ifp w) (w_trace w ++ [e]).

(** ** The monad of the script: state and exceptions *)

Definition M (A : Type) : Type := world -> result A * world.

Definition ret {A : Type} (a : A) : M A := fun w => (Ret a, w).

Definition bind {A B : Type} (m : M A) (k : A -> M B) : M B :=
  fun w =>
    match m w with
    | (Ret a, w') => k a w'
    | (Raise e, w') => (Raise e, w')
    end.

Definition lift {A : Type} (r : result A) : M A := fun w => (r, w).

Definition emit (e : effect) : M unit := fun w => (Ret tt, add_trace e w).

End Script.

Notation "x <- m ;; k" := (bind m (fun x => k))
  (at level 61, m at next level, right associativity).
Notation "m ;; k" := (bind m (fun _ => k))
  (at level 61, right associativity).

Section Program.

Context {J : JsonText} {L : PyLib}.

(** [for x in xs: body(x)] *)
Fixpoint for_each {A : Type} (xs : list A) (body : A -> M unit) : M unit :=
  match xs with
  | [] => ret tt
  | x :: xs' => body x ;; for_each xs' body
  end.

(** *** External operations *)

Definition utcnow : M datetime :=
  fun w => (Ret (w_clock w (w_ticks w)), set_ticks (S (w_ticks w)) w).

(** [time.sleep(secs)]: raises when the duration is refused, otherwise
    sleeps, which is recorded in the trace. *)
Definition time_sleep (secs : float) : M unit :=
  match sleep_error secs with
  | Some e => lift (Raise (exn_of_sleep e))
  | None => emit (TimeSleep secs)
  end.

Definition logging_info (r : log_record) : M unit := emit (LoggingInfo r).

Definition print (s : json_text) : M unit := emit (Print s).

(** [publisher.publish(topic, data.encode())]; the payload is the UTF-8
    encoding of [data].  The client takes the message and returns a future,
    which the script never waits for. *)
Definition publisher_publish (topic : str) (data : json_text) : M unit :=
  emit (PublisherPublish topic data).

Definition ifp_tell : M nat := fun w => (Ret (fpos (w_ifp w)), w).

Definition ifp_seek (pos : nat) : M unit := fun w => (Ret tt, set_fpos pos w).

(** [ifp.readline()]: the next line, or [b''] at the end of the file. *)
Definition ifp_readline : M bytes :=
  fun w =>
    match nth_error (flines (w_ifp w)) (fpos (w_ifp w)) with
    | Some line => (Ret line, set_fpos (S (fpos (w_ifp w))) w)
    | None => (Ret EmptyString, w)
    end.

(** [for line in ifp: acc = body(line, acc)], for a body that leaves the
    file alone: each iteration takes the next line off the file, then runs
    the body. *)
Fixpoint for_lines {S : Type} (body : bytes -> S -> M S)
         (lines : list bytes) (acc : S) : M S :=
  match lines with
  | [] => ret acc
  | line :: rest =>
      pos <- ifp_tell ;;
      ifp_seek (Datatypes.S pos) ;;
      acc' <- body line acc ;;
      for_lines body rest acc'
  end.

Definition remaining (f : file) : list bytes := skipn (fpos f) (flines f).

Definition for_line_in_ifp {S : Type} (body : bytes -> S -> M S) (acc : S) : M S :=
  fun w => for_lines body (remaining (w_ifp w)) acc w.

(** ** The script *)

Definition TIME_FORMAT : str := "%Y-%m-%d %H:%M:%S".
Definition TOPIC : str := "sandiego".
Definition INPUT : str := "sensor_obs2008.csv.gz".

Definition publish (topic : str) (events : list json_text) : M unit :=
  let numobs := Z.of_nat (List.length events) in
  e0 <- lift (list_getitem events 0) ;;
  print e0 ;;
  if 0 <? numobs then
    d <- lift (of_option ValueError (json_loads e0)) ;;
    ts <- lift (dict_getitem d "timestamp") ;;
    logging_info (LogPublishing numobs ts) ;;
    for_each events (fun event_data => publisher_publish topic event_data)
  else ret tt.

Definition result_bind {A B : Type} (r : result A) (k : A -> result B) : result B :=
  match r with
  | Ret a => k a
  | Raise e => Raise e
  end.

Definition get_timestamp (line : bytes) : result datetime :=
  result_bind (of_option UnicodeDecodeError (decode_utf8 line)) (fun line =>
  let timestamp := hd EmptyString (split "," line) in
  of_option ValueError (strptime timestamp TIME_FORMAT)).

(** [float(v)] and [int(v)] on a value. *)
Definition py_float (v : pyval) : result pyval :=
  match v with
  | VStr s => result_bind (of_option ValueError (float_of_str s)) (fun x => Ret (VFloat x))
  | VFloat x => Ret (VFloat x)
  | VInt n =>
      match Float.of_int n with
      | S754_infinity _ => Raise OverflowError
      | x => Ret (VFloat x)
      end
  end.

Definition py_int (v : pyval) : result pyval :=
  match v with
  | VStr s => result_bind (of_option ValueError (int_of_str s)) (fun n => Ret (VInt n))
  | VFloat x => result_bind (float_trunc x) (fun n => Ret (VInt n))
  | VInt n => Ret (VInt n)
  end.

(** [d[k] = conv(d[k])] *)
Definition convert_field (conv : pyval -> result pyval) (k : str) (d : dict) : result dict :=
  result_bind (dict_getitem d k) (fun v =>
  result_bind (conv v) (fun v' =>
  Ret (dict_setitem d k v'))).

Definition fields : list str :=
  split "," "timestamp,latitude,longitude,freeway_id,freeway_dir,lane,speed".

Definition convert_csv_to_json (line : bytes) : result json_text :=
  result_bind (of_option UnicodeDecodeError (decode_utf8 line)) (fun line =>
  let line_arr := split "," line in
  let line_dict := dict_of_zip fields line_arr in
  result_bind (convert_field py_float "latitude" line_dict) (fun line_dict =>
  result_bind (convert_field py_float "longitude" line_dict) (fun line_dict =>
  result_bind (convert_field py_int "freeway_id" line_dict) (fun line_dict =>
  result_bind (convert_field py_int "lane" line_dict) (fun line_dict =>
  result_bind (convert_field py_float "speed" line_dict) (fun line_dict =>
  Ret (json_dumps line_dict))))))).

Section Simulate.

Variable topic : str.
Variables firstObsTime programStart : datetime.
Variable speedFactor : float.

Definition compute_sleep_secs (obs_time : datetime) : M float :=
  now <- utcnow ;;
  let time_elapsed := seconds (Datetime.sub now programStart) in
  sim_time_elapsed <-
    lift (Float.truediv
            (Float.of_int (seconds (Datetime.sub obs_time firstObsTime)))
            speedFactor) ;;
  ret (Float.sub sim_time_elapsed (Float.of_int time_elapsed)).

(** One iteration of the loop of [simulate]: from the accumulated
    [topublish] to the next one. *)
Definition simulate_body (line : bytes) (topublish : list json_text)
  : M (list json_text) :=
  let event_data := line in
  obs_time <- lift (get_timestamp line) ;;
  secs <- compute_sleep_secs obs_time ;;
  topublish <-
    (if Float.gt secs (Float.of_int 1) then
       publish topic topublish ;;
       let topublish := [] in
       to_sleep_secs <- compute_sleep_secs obs_time ;;
       (if Float.gt to_sleep_secs (Float.of_int 0) then
          logging_info (LogSleeping to_sleep_secs) ;;
          time_sleep to_sleep_secs
        else ret tt) ;;
       ret topublish
     else ret topublish) ;;
  event_data_json <- lift (convert_csv_to_json event_data) ;;
  ret (topublish ++ [event_data_json]).

Definition simulate : M unit :=
  topublish <- for_line_in_ifp simulate_body [] ;;
  publish topic topublish.

End Simulate.

Definition peek_timestamp : M datetime :=
  pos <- ifp_tell ;;
  line <- ifp_readline ;;
  ifp_seek pos ;;
  lift (get_timestamp line).

(** [publisher.topic_path(project, topic)] *)
Definition topic_path (project topic : str) : str :=
  ("projects/" ++ project ++ "/topics/" ++ topic)%string.

(** The [try: get_topic ... except: create_topic ...] block, against a
    Pub/Sub service that answers: [get_topic] raises exactly for a topic
    the service does not know, and [create_topic] then registers it.  (A
    service that fails for another reason, such as a missing permission or
    no network, is outside this model: there [create_topic] can raise and
    end the script before anything is read.) *)
Definition ensure_topic (event_type : str) : M unit :=
  fun w =>
    if existsb (String.eqb event_type) (w_topics w) then
      logging_info (LogReusingTopic TOPIC) w
    else
      (emit (PublisherCreateTopic event_type) ;;
       logging_info (LogCreatingTopic TOPIC))
        (set_topics (event_type :: w_topics w) w).

(** The [__main__] block, after argument parsing; [gzip.open] positions the
    file at its start. *)
Definition main (speedFactor : float) (project : str) : M unit :=
  let event_type := topic_path project TOPIC in
  ensure_topic event_type ;;
  programStartTime <- utcnow ;;
  ifp_seek 0 ;;
  header <- ifp_readline ;;
  firstObsTime <- peek_timestamp ;;
  logging_info (LogSendingFrom firstObsTime) ;;
  simulate event_type firstObsTime programStartTime speedFactor.

End Program.

(** ** An executable implementation of the library surface

    [PyRef] follows CPython 3.11 (Unicode 14.0): [bytes.decode('utf-8')],
    [strptime] for formats made of the directives [%Y %m %d %H %M %S %%],
    white space and literal characters that are not letters, the literals
    of [int] and [float] in full (white space, signs, underscores,
    exponents, [inf] and [nan], decimal digits of any script, any number of
    digits, rounded to nearest with ties to even), and the tests
    [time.sleep] makes on a duration.  A JSON document is represented by
    the object it denotes. *)

Module PyRef.

Definition code (c : ascii) : Z := Z.of_nat (nat_of_ascii c).

Definition in_range (lo hi : Z) (c : Z) : bool := (lo <=? c) && (c <=? hi).

Definition is_char (a : ascii) (c : Z) : bool := code a =? c.

(** *** UTF-8 *)

Definition byte_in (lo hi : Z) (b : ascii) : bool := in_range lo hi (code b).

Definition cont (b : ascii) : bool := byte_in 128 191 b.

(** Well-formed UTF-8 byte sequences (no overlong forms, no surrogates,
    nothing above U+10FFFF). *)
Fixpoint utf8_valid (s : list ascii) : bool :=
  match s with
  | [] => true
  | b0 :: s1 =>
      if byte_in 0 127 b0 then utf8_valid s1
      else
        match s1 with
        | [] => false
        | b1 :: s2 =>
            if byte_in 194 223 b0 then cont b1 && utf8_valid s2
            else
              match s2 with
              | [] => false
              | b2 :: s3 =>
                  if byte_in 224 239 b0 then
                    (if code b0 =? 224 then byte_in 160 191 b1
                     else if code b0 =? 237 then byte_in 128 159 b1
                     else cont b1)
                    && cont b2 && utf8_valid s3
                  else
                    match s3 with
                    | [] => false
                    | b3 :: s4 =>
                        byte_in 240 244 b0
                        && (if code b0 =? 240 then byte_in 144 191 b1
                            else if code b0 =? 244 then byte_in 128 143 b1
                            else cont b1)
                        && cont b2 && cont b3 && utf8_valid s4
                    end
              end
        end
  end.

Definition decode_utf8 (b : bytes) : option str :=
  if utf8_valid (list_ascii_of_string b) then Some b else None.

(** The code points of a [str], read off its UTF-8 encoding. *)
Fixpoint points (s : list ascii) : list Z :=
  match s with
  | [] => []
  | b0 :: s1 =>
      if code b0 <? 192 then code b0 :: points s1
      else
        match s1 with
        | [] => [code b0]
        | b1 :: s2 =>
            if code b0 <? 224 then
              ((code b0 - 192) * 64 + (code b1 - 128)) :: points s2
            else
              match s2 with
              | [] => [code b0; code b1]
              | b2 :: s3 =>
                  if code b0 <? 240 then
                    ((code b0 - 224) * 4096 + (code b1 - 128) * 64
                     + (code b2 - 128)) :: points s3
                  else
                    match s3 with
                    | [] => [code b0; code b1; code b2]
                    | b3 :: s4 =>
                        ((code b0 - 240) * 262144 + (code b1 - 128) * 4096
                         + (code b2 - 128) * 64 + (code b3 - 128)) :: points s4
                    end
              end
        end
  end.

Definition str_points (s : str) : list Z := points (list_ascii_of_string s).

(** *** Character classes *)

(** The digits zero of the decimal digits (category Nd); each is followed
    by its digits one to nine. *)
Definition decimal_zeros : list Z :=
  [48; 1632; 1776; 1984; 2406; 2534; 2662; 2790;
   2918; 3046; 3174; 3302; 3430; 3558; 3664; 3792;
   3872; 4160; 4240; 6112; 6160; 6470; 6608; 6784;
   6800; 6992; 7088; 7232; 7248; 42528; 43216; 43264;
   43472; 43504; 43600; 44016; 65296; 66720; 68912; 69734;
   69872; 69942; 70096; 70384; 70736; 70864; 71248; 71360;
   71472; 71904; 72016; 72784; 73040; 73120; 92768; 92864;
   93008; 120782; 120792; 120802; 120812; 120822; 123200; 123632;
   125264; 130032].

(** [unicodedata.decimal] *)
Definition decimal_value (c : Z) : option Z :=
  match find (fun z => (z <=? c) && (c <? z + 10)) decimal_zeros with
  | Some z => Some (c - z)
  | None => None
  end.

(** [str.isdecimal], the class [\d] of a regular expression on [str] *)
Definition is_decimal (c : Z) : bool :=
  match decimal_value c with
  | Some _ => true
  | None => false
  end.

(** [str.isspace], the class [\s] of a regular expression on [str] *)
Definition is_space (c : Z) : bool :=
  in_range 9 13 c || in_range 28 32 c || (c =? 133) || (c =? 160)
  || (c =? 5760) || in_range 8192 8202 c || in_range 8232 8233 c
  || (c =? 8239) || (c =? 8287) || (c =? 12288).

(** the value of the decimal digits of a text, other characters ignored *)
Definition digits_val (s : list Z) : Z :=
  fold_left (fun acc c =>
               match decimal_value c with
               | Some d => acc * 10 + d
               | None => acc
               end) s 0.

(** *** [strptime] *)

Inductive token : Type :=
| TYear | TMonth | TDay | THour | TMinute | TSecond
| TSpace
| TLit (c : Z).

Definition is_letter (c : Z) : bool :=
  in_range 65 90 c || in_range 97 122 c || (128 <=? c).

(** The format, cut into directives, white-space runs and literal
    characters; [None] for a format that is not covered. *)
Fixpoint tokens (fmt : list Z) : option (list token) :=
  match fmt with
  | [] => Some []
  | c :: rest =>
      if is_char "%" c then
        match rest with
        | [] => None
        | d :: rest' =>
            let dir :=
              if is_char "Y" d then Some TYear
              else if is_char "m" d then Some TMonth
              else if is_char "d" d then Some TDay
              else if is_char "H" d then Some THour
              else if is_char "M" d then Some TMinute
              else if is_char "S" d then Some TSecond
              else if is_char "%" d then Some (TLit d)
              else None in
            match dir, tokens rest' with
            | Some t, Some ts => Some (t :: ts)
            | _, _ => None
            end
        end
      else
        match tokens rest with
        | None => None
        | Some ts =>
            if is_space c then
              match ts with
              | TSpace :: _ => Some ts
              | _ => Some (TSpace :: ts)
              end
            else if is_letter c then None
            else Some (TLit c :: ts)
        end
  end.

(** A pattern is a sequence of character classes; a directive is an ordered
    choice of patterns, as in the regular expression [strptime] builds. *)
Definition pattern : Type := list (Z -> bool).

Definition alternatives (t : token) : list pattern :=
  match t with
  | TYear => [[is_decimal; is_decimal; is_decimal; is_decimal]]
  | TMonth => [[is_char "1"; in_range 48 50]; [is_char "0"; in_range 49 57];
               [in_range 49 57]]
  | TDay => [[is_char "3"; in_range 48 49]; [in_range 49 50; is_decimal];
             [is_char "0"; in_range 49 57]; [in_range 49 57];
             [is_char " "; in_range 49 57]]
  | THour => [[is_char "2"; in_range 48 51]; [in_range 48 49; is_decimal];
              [is_decimal]]
  | TMinute => [[in_range 48 53; is_decimal]; [is_decimal]]
  | TSecond => [[is_char "6"; in_range 48 49]; [in_range 48 53; is_decimal];
                [is_decimal]]
  | TSpace => []
  | TLit _ => []
  end.

Fixpoint match_pattern (p : pattern) (s : list Z)
  : option (list Z * list Z) :=
  match p with
  | [] => Some ([], s)
  | cls :: p' =>
      match s with
      | [] => None
      | c :: s' =>
          if cls c then
            match match_pattern p' s' with
            | Some (m, rest) => Some (c :: m, rest)
            | None => None
            end
          else None
      end
  end.

Definition set_field (t : token) (v : Z) (d : datetime) : datetime :=
  match t with
  | TYear => mkdatetime v (month d) (day d) (hour d) (minute d) (second d) (microsecond d)
  | TMonth => mkdatetime (year d) v (day d) (hour d) (minute d) (second d) (microsecond d)
  | TDay => mkdatetime (year d) (month d) v (hour d) (minute d) (second d) (microsecond d)
  | THour => mkdatetime (year d) (month d) (day d) v (minute d) (second d) (microsecond d)
  | TMinute => mkdatetime (year d) (month d) (day d) (hour d) v (second d) (microsecond d)
  | TSecond => mkdatetime (year d) (month d) (day d) (hour d) (minute d) v (microsecond d)
  | _ => d
  end.

Fixpoint leading_spaces (s : list Z) : nat :=
  match s with
  | c :: s' => if is_space c then S (leading_spaces s') else O
  | [] => O
  end.

(** Match a prefix of [s] against the tokens, first alternative first, the
    longest run of white space first, backtracking on failure. *)
Fixpoint match_tokens (ts : list token) (s : list Z) (d : datetime)
  : option (datetime * list Z) :=
  match ts with
  | [] => Some (d, s)
  | TLit c :: ts' =>
      match s with
      | a :: s' => if a =? c then match_tokens ts' s' d else None
      | [] => None
      end
  | TSpace :: ts' =>
      (fix try (k : nat) : option (datetime * list Z) :=
         match k with
         | O => None
         | S k' =>
             match match_tokens ts' (skipn k s) d with
             | Some r => Some r
             | None => try k'
             end
         end) (leading_spaces s)
  | t :: ts' =>
      (fix choose (alts : list pattern) : option (datetime * list Z) :=
         match alts with
         | [] => None
         | p :: alts' =>
             match match_pattern p s with
             | Some (m, rest) =>
                 match match_tokens ts' rest (set_field t (digits_val m) d) with
                 | Some r => Some r
                 | None => choose alts'
                 end
             | None => choose alts'
             end
         end) (alternatives t)
  end.

Definition strptime (data_string format : str) : option datetime :=
  match tokens (str_points format) with
  | None => None
  | Some ts =>
      match match_tokens ts (str_points data_string)
                         (mkdatetime 1900 1 1 0 0 0 0) with
      | Some (d, []) => if Datetime.valid d then Some d else None
      | _ => None
      end
  end.

(** *** [int] and [float] of a string *)

(** What [int] and [float] read: the text with its white space turned
    into blanks and its decimal digits into ASCII digits; another
    character outside ASCII cannot be part of a literal. *)
Definition to_ascii (c : Z) : ascii :=
  if c <? 127 then ascii_of_nat (Z.to_nat c)
  else if is_space c then " "%char
  else
    match decimal_value c with
    | Some d => ascii_of_nat (Z.to_nat (48 + d))
    | None => "?"%char
    end.

Definition literal (s : str) : list ascii := map to_ascii (str_points s).

Definition is_digit (c : ascii) : bool := byte_in 48 57 c.

Definition is_sign (a : ascii) (c : ascii) : bool := Ascii.eqb a c.

(** White space stripped from both ends of a literal. *)
Definition is_literal_space (c : ascii) : bool :=
  byte_in 9 13 c || (code c =? 32).

Fixpoint lstrip (s : list ascii) : list ascii :=
  match s with
  | c :: s' => if is_literal_space c then lstrip s' else s
  | [] => []
  end.

Definition strip (s : list ascii) : list ascii :=
  rev (lstrip (rev (lstrip s))).

(** An optional sign, then the rest. *)
Definition split_sign (s : list ascii) : bool * list ascii :=
  match s with
  | c :: s' =>
      if is_sign "-" c then (true, s')
      else if is_sign "+" c then (false, s')
      else (false, s)
  | [] => (false, [])
  end.

(** Digits, with single underscores between digits. *)
Fixpoint int_body (s : list ascii) (after_digit : bool) : bool :=
  match s with
  | [] => after_digit
  | c :: s' =>
      if is_digit c then int_body s' true
      else if is_sign "_" c then after_digit && int_body s' false
      else false
  end.

Definition count_digits (s : list ascii) : Z :=
  Z.of_nat (List.length (filter is_digit s)).

(** the value of the ASCII digits of a literal, underscores ignored *)
Definition literal_val (s : list ascii) : Z :=
  fold_left (fun acc c => if is_digit c then acc * 10 + (code c - 48) else acc)
            s 0.

(** [int(s)]; a literal of more than 4300 digits is refused (the default
    limit of the conversion). *)
Definition int_of_str (s : str) : option Z :=
  let (neg, body) := split_sign (strip (literal s)) in
  if int_body body false && (count_digits body <=? 4300) then
    Some (if neg then - literal_val body else literal_val body)
  else None.

(** [s] cut at its first character in the class [p], which is dropped. *)
Fixpoint break (p : ascii -> bool) (s : list ascii)
  : list ascii * option (list ascii) :=
  match s with
  | [] => ([], None)
  | c :: s' =>
      if p c then ([], Some s')
      else let (a, b) := break p s' in (c :: a, b)
  end.

(** The float nearest to [d * 10 ^ e10], ties to even, for a whole number
    [d >= 0] written with [n] digits, with sign bit [neg].  Beyond 1e310
    the result is an infinity, below 1e-330 a zero; in between the
    quotient of two whole numbers is rounded once. *)
Definition decimal (neg : bool) (d n e10 : Z) : float :=
  if d =? 0 then S754_zero neg
  else if 310 <=? e10 then S754_infinity neg
  else if n + e10 <=? -330 then S754_zero neg
  else
    let num := if 0 <=? e10 then d * 10 ^ e10 else d in
    let den := if 0 <=? e10 then 1 else 10 ^ (- e10) in
    let '(mz, ez, lz) := SFdiv_core_binary Float.prec Float.emax num 0 den 0 in
    binary_round_aux Float.prec Float.emax neg mz ez lz.

(** Nothing, or digits with single underscores between digits. *)
Definition digitpart_opt (s : list ascii) : bool :=
  match s with
  | [] => true
  | _ => int_body s false
  end.

Definition lower (c : ascii) : ascii :=
  if byte_in 65 90 c then ascii_of_nat (nat_of_ascii c + 32) else c.

Definition float_of_str (s : str) : option float :=
  let (neg, body) := split_sign (strip (literal s)) in
  let word := string_of_list_ascii (map lower body) in
  if String.eqb word "inf" || String.eqb word "infinity" then
    Some (S754_infinity neg)
  else if String.eqb word "nan" then Some S754_nan
  else
    let (number, exponent) :=
      break (fun c => is_sign "e" c || is_sign "E" c) body in
    let (ip, point) := break (is_sign ".") number in
    let fp := match point with Some fp => fp | None => [] end in
    let exp10 :=
      match exponent with
      | None => Some 0
      | Some e =>
          let (eneg, ebody) := split_sign e in
          if int_body ebody false then
            Some (if eneg then - literal_val ebody else literal_val ebody)
          else None
      end in
    match exp10 with
    | None => None
    | Some x =>
        if digitpart_opt ip && digitpart_opt fp
           && (0 <? count_digits (ip ++ fp)) then
          Some (decimal neg (literal_val (ip ++ fp)) (count_digits (ip ++ fp))
                        (x - count_digits fp))
        else None
    end.

(** *** [time.sleep]

    The tests CPython makes before it sleeps: the duration is turned into
    nanoseconds, [secs * 1e9] in float arithmetic, to be held in a signed
    64-bit counter.  NaN is refused with [ValueError]; a duration beyond
    2^63 ns (some 292 years), infinity included, with [OverflowError]; a
    negative one with [ValueError], and so is one of exactly 2^63 ns,
    which passes the range test and wraps the counter.  (The nanoseconds
    are rounded up to a whole number before the tests, which changes none
    of them.)  The operating system is taken to accept what passes these
    tests. *)
Definition sleep_error (secs : float) : option sleep_exn :=
  if Float.is_nan secs then Some SleepValueError
  else
    let ns := Float.mul secs (Float.of_int 1000000000) in
    if negb (Float.le (Float.of_int (- 2 ^ 63)) ns
             && Float.le ns (Float.of_int (2 ^ 63)))
    then Some SleepOverflowError
    else if Float.lt ns (Float.of_int 0) || Float.eqb ns (Float.of_int (2 ^ 63))
    then Some SleepValueError
    else None.

Definition json : JsonText := dict.

Definition lib : PyLib (J := json) :=
  Build_PyLib json decode_utf8 strptime float_of_str int_of_str
              (fun d => d) (fun d => Some d) sleep_error.

End PyRef.

(** ** Reading a run: observations on traces and reference quantities *)

(** The spec's "whole seconds between [a] and [b]": the difference of the
    two instants, rounded down to a whole second. *)
Definition whole_seconds_between (a b : datetime) : Z :=
  (instant_us a - instant_us b) / 1000000.

(** Sign classes of a float. [sign_is s x]: [x] is NaN or carries the sign
    bit [s]. *)
Definition sign_is (s : bool) (x : float) : Prop :=
  match x with
  | S754_nan => True
  | S754_zero s' => s' = s
  | S754_infinity s' => s' = s
  | S754_finite s' _ _ => s' = s
  end.

(** [x] is a zero or a finite number with sign bit [s]. *)
Definition finite_with_sign (s : bool) (x : float) : bool :=
  match x with
  | S754_zero s' => Bool.eqb s' s
  | S754_finite s' _ _ => Bool.eqb s' s
  | _ => false
  end.

(** [x] is a number (not NaN) that is zero or below. *)
Definition is_nonpos (x : float) : bool :=
  match x with
  | S754_zero _ => true
  | S754_finite s _ _ => s
  | S754_infinity s => s
  | S754_nan => false
  end.

(** [x] is a number strictly below zero. *)
Definition is_negative (x : float) : bool :=
  match x with
  | S754_finite s _ _ => s
  | S754_infinity s => s
  | _ => false
  end.

(** [x] is a number strictly above zero. *)
Definition is_positive (x : float) : bool :=
  match x with
  | S754_finite s _ _ => negb s
  | S754_infinity s => negb s
  | _ => false
  end.

Definition is_infinite (x : float) : bool :=
  match x with
  | S754_infinity _ => true
  | _ => false
  end.

(** [x] is a positive normal float of at least 2^20. *)
Definition at_least_2p20 (x : float) : bool :=
  match x with
  | S754_finite false m e => (Zpos (digits2_pos m) =? 53) && (-32 <=? e)
  | _ => false
  end.

(** The shape of [float(n)] for a whole number of seconds below one day:
    zero, or a normal positive float with exponent between -52 and -36. *)
Definition seconds_shape (x : float) : bool :=
  match x with
  | S754_zero false => true
  | S754_finite false m e =>
      (Zpos (digits2_pos m) =? 53) && (-52 <=? e) && (e <=? -36)
  | _ => false
  end.

(** [x] is NaN, a zero, or a positive finite float of at most 1 whose
    mantissa and exponent are bounded as below. *)
Definition small_quotient (x : float) : Prop :=
  match x with
  | S754_nan => True
  | S754_zero s => s = false
  | S754_finite s m e => s = false /\ Zpos m <= 2 ^ 54 /\ e <= -54
  | S754_infinity _ => False
  end.

(** A bounded universal check: [P] on the [n] integers from [z] on. *)
Fixpoint all_from (P : Z -> bool) (z : Z) (n : nat) : bool :=
  match n with
  | O => true
  | S k => P z && all_from P (z + 1) k
  end.

(** The outcome is not the [IndexError] of an empty flush. *)
Definition not_IndexError {A : Type} (r : result A) : Prop :=
  r <> Raise IndexError.

(** [[conv(x) for x in xs]], stopping at the first exception. *)
Fixpoint map_result {A B : Type} (f : A -> result B) (xs : list A) : result (list B) :=
  match xs with
  | [] => Ret []
  | x :: xs' =>
      result_bind (f x) (fun y =>
      result_bind (map_result f xs') (fun ys => Ret (y :: ys)))
  end.

Section Observations.

Context {J : JsonText}.

(** The messages handed to the Pub/Sub client, oldest first. *)
Fixpoint published (tr : list effect) : list (str * json_text) :=
  match tr with
  | [] => []
  | PublisherPublish topic data :: tr' => (topic, data) :: published tr'
  | _ :: tr' => published tr'
  end.

(** The durations slept, oldest first. *)
Fixpoint sleeps (tr : list effect) : list float :=
  match tr with
  | [] => []
  | TimeSleep secs :: tr' => secs :: sleeps tr'
  | _ :: tr' => sleeps tr'
  end.

Definition add_traces (es : list effect) (w : world) : world :=
  mkworld (w_clock w) (w_ticks w) (w_topics w) (w_ifp w) (w_trace w ++ es).

Definition tick (w : world) : world := set_ticks (S (w_ticks w)) w.

(** What one successful call of [publish] adds to the trace. *)
Definition flush_trace (topic : str) (events : list json_text) (ts : pyval)
  : list effect :=
  match events with
  | [] => []
  | e0 :: _ =>
      Print e0
      :: LoggingInfo (LogPublishing (Z.of_nat (List.length events)) ts)
      :: map (PublisherPublish topic) events
  end.

(** What the sleep decision after a flush adds to the trace. *)
Definition sleep_trace (to_sleep_secs : float) : list effect :=
  if Float.gt to_sleep_secs (Float.of_int 0) then
    [LoggingInfo (LogSleeping to_sleep_secs); TimeSleep to_sleep_secs]
  else [].

(** The value [compute_sleep_secs(obs_time)] returns when the clock reads
    [now]. *)
Definition sleep_secs_at (firstObsTime programStart : datetime)
           (speedFactor : float) (obs_time now : datetime) : result float :=
  result_bind
    (Float.truediv (Float.of_int (seconds (Datetime.sub obs_time firstObsTime)))
                   speedFactor)
    (fun sim_time_elapsed =>
       Ret (Float.sub sim_time_elapsed
                      (Float.of_int (seconds (Datetime.sub now programStart))))).

(** The clock model in the spec's words: simulated elapsed time minus wall
    elapsed time, both in whole seconds between the two instants. *)
Definition requiredSleepSeconds (firstObsTime programStart : datetime)
           (speedFactor : float) (obsTime now : datetime) : float :=
  let wallElapsed := whole_seconds_between now programStart in
  let simElapsed :=
    SFdiv Float.prec Float.emax
          (Float.of_int (whole_seconds_between obsTime firstObsTime))
          speedFactor in
  Float.sub simElapsed (Float.of_int wallElapsed).

(** The same with each elapsed time reduced to its seconds-of-day part. *)
Definition requiredSleepSeconds_of_day (firstObsTime programStart : datetime)
           (speedFactor : float) (obsTime now : datetime) : float :=
  let wallElapsed := whole_seconds_between now programStart mod 86400 in
  let simElapsed :=
    SFdiv Float.prec Float.emax
          (Float.of_int (whole_seconds_between obsTime firstObsTime mod 86400))
          speedFactor in
  Float.sub simElapsed (Float.of_int wallElapsed).

End Observations.

(** The object [convert_csv_to_json] builds for a row: the seven fields in
    the order of the column names, numbers converted. *)
Definition record_dict (timestamp : str) (latitude longitude : float)
           (freeway_id : Z) (freeway_dir : str) (lane : Z) (speed : float)
  : dict :=
  [("timestamp", VStr timestamp); ("latitude", VFloat latitude);
   ("longitude", VFloat longitude); ("freeway_id", VInt freeway_id);
   ("freeway_dir", VStr freeway_dir); ("lane", VInt lane);
   ("speed", VFloat speed)].

Section RunObservations.

Context {J : JsonText} {L : PyLib}.

(** The exception in which the sleep decision after a flush ends, if
    any: [time.sleep] is called for a duration above zero only. *)
Definition sleep_refusal (to_sleep_secs : float) : option exn :=
  if Float.gt to_sleep_secs (Float.of_int 0) then
    option_map exn_of_sleep (sleep_error to_sleep_secs)
  else None.

(** The topics created, oldest first. *)
Fixpoint created (tr : list effect) : list str :=
  match tr with
  | [] => []
  | PublisherCreateTopic topic :: tr' => topic :: created tr'
  | _ :: tr' => created tr'
  end.

(** What the loop of [simulate] may emit: no topic is created, and a sleep
    is for a duration above zero. *)
Definition loop_effect (e : effect) : bool :=
  match e with
  | PublisherCreateTopic _ => false
  | TimeSleep secs => Float.gt secs (Float.of_int 0)
  | _ => true
  end.

(** What one flush inside the loop adds to the trace: the flush of the
    batch, then the sleep decision on the recomputed duration. *)
Definition segment_trace (topic : str)
           (seg : list json_text * pyval * float) : list effect :=
  flush_trace topic (fst (fst seg)) (snd (fst seg)) ++ sleep_trace (snd seg).

(** How the loop of [simulate] may change the world: the clock, the topics
    and the content of the input stay as they are, and the trace grows by
    loop effects only. *)
Definition loop_step (w w' : world) : Prop :=
  w_clock w' = w_clock w
  /\ w_topics w' = w_topics w
  /\ flines (w_ifp w') = flines (w_ifp w)
  /\ exists es, w_trace w' = w_trace w ++ es /\ forallb loop_effect es = true.

(** [j] is the encoded form of some row. *)
Definition converted (j : json_text) : Prop :=
  exists line, convert_csv_to_json line = Ret j.

End RunObservations.

Section StartupWorld.

Context {J : JsonText}.

(** The world in which [simulate] starts, for an input made of a header
    and at least one record whose timestamp is [t]. *)
Definition after_startup (project : str) (t : datetime) (w : world) : world :=
  let w1 := snd (ensure_topic (topic_path project TOPIC) w) in
  add_trace (LoggingInfo (LogSendingFrom t)) (set_fpos 1 (tick w1)).

Definition start_time (project : str) (w : world) : datetime :=
  let w1 := snd (ensure_topic (topic_path project TOPIC) w) in
  w_clock w1 (w_ticks w1).

End StartupWorld.

(** ** Sample rows *)

Module Rows.

(** a row with a single field *)
Definition timestamp_only : bytes := "2008-11-01 00:00:00".

(** a row with eight fields *)
Definition with_extra : bytes :=
  "2008-11-01 00:00:00,32.749679,-117.155519,163,S,1,71.2,extra".

Definition without_extra : bytes :=
  "2008-11-01 00:00:00,32.749679,-117.155519,163,S,1,71.2".

End Rows.

(** ** Sample inputs *)

Module Example.

Definition nl : string := String (ascii_of_nat 10) EmptyString.

Definition header : bytes :=
  ("TIMESTAMP,LATITUDE,LONGITUDE,FREEWAY_ID,FREEWAY_DIR,LANE,SPEED" ++ nl)%string.

Definition rec0 : bytes :=
  ("2008-11-01 00:00:00,32.749679,-117.155519,163,S,1,71.2" ++ nl)%string.

Definition rec1 : bytes :=
  ("2008-11-01 00:00:01,32.749679,-117.155519,163,S,2,65.1" ++ nl)%string.

(** a record stamped half a second after [rec0] *)
Definition rec1_half : bytes :=
  ("2008-11-01 00:00:00.5,32.749679,-117.155519,163,S,2,65.1" ++ nl)%string.

Definition rec2 : bytes :=
  ("2008-11-01 00:00:02,32.780988,-117.090066,15,N,1,57.4" ++ nl)%string.


(** the observation time of [rec0] *)
Definition T : datetime := mkdatetime 2008 11 1 0 0 0 0.

Definition T_plus (secs : Z) : datetime := mkdatetime 2008 11 1 0 0 secs 0.

Definition T_half : datetime := mkdatetime 2008 11 1 0 0 0 500000.

(** the wall clock when the run starts, and some later readings *)
Definition wall : datetime := mkdatetime 2021 3 9 14 30 12 250000.

Definition wall_plus (secs : Z) : datetime :=
  mkdatetime 2021 3 9 14 30 (12 + secs) 250000.

Definition wall_next_day (secs : Z) : datetime :=
  mkdatetime 2021 3 10 14 30 (12 + secs) 250000.

(** a clock that does not advance (zero latency everywhere) *)
Definition frozen (n : nat) : datetime := wall.

Definition project : str := "demo".

Definition topic : str := topic_path project TOPIC.

Definition one : float := Float.of_int 1.



(** the largest finite float *)
Definition max_float : float := S754_finite false (2 ^ 53 - 1) 971.

(** the float nearest to 1e-10, a very slow replay *)
Definition slow : float :=
  Eval vm_compute in
    SFdiv Float.prec Float.emax (Float.of_int 1) (Float.of_int 10000000000).

(** A fresh world: the given clock, no topic yet, the input at position
    [pos], nothing done. *)
Definition start (clock : nat -> datetime) (lines : list bytes) (pos : nat)
  : world (J := PyRef.json) :=
  mkworld clock 0%nat [] (mkfile lines pos) [].

(** the encoded forms of the three records *)
Definition json0 : dict :=
  Eval vm_compute in
    match convert_csv_to_json (L := PyRef.lib) rec0 with
    | Ret j => j
    | Raise _ => []
    end.

Definition json1 : dict :=
  Eval vm_compute in
    match convert_csv_to_json (L := PyRef.lib) rec1 with
    | Ret j => j
    | Raise _ => []
    end.

Definition json2 : dict :=
  Eval vm_compute in
    match convert_csv_to_json (L := PyRef.lib) rec2 with
    | Ret j => j
    | Raise _ => []
    end.

End Example.


(** * Properties *)

(** ** Elapsed seconds of a [timedelta] *)

Lemma mk_timedelta_seconds (d s us : Z) :
  seconds (mk_timedelta d s us) = (s + us / 1000000) mod 86400.
Proof.
  unfold mk_timedelta; cbn [seconds].
  rewrite <- Z.add_mod by lia. reflexivity.
Qed.

Lemma sub_seconds_mod (a b : datetime) :
  seconds (Datetime.sub a b) = whole_seconds_between a b mod 86400.
Proof.
  unfold Datetime.sub, whole_seconds_between, instant_us.
  rewrite mk_timedelta_seconds.
  set (da := toordinal a). set (db := toordinal b).
  set (sa := second a + minute a * 60 + hour a * 3600).
  set (sb := second b + minute b * 60 + hour b * 3600).
  set (ua := microsecond a). set (ub := microsecond b).
  replace ((da * 86400 + sa) * 1000000 + ua - ((db * 86400 + sb) * 1000000 + ub))
    with ((ua - ub) + ((da - db) * 86400 + (sa - sb)) * 1000000) by ring.
  rewrite Z.div_add by lia.
  replace (sa - sb + (ua - ub) / 1000000)
    with ((ua - ub) / 1000000 + (sa - sb)) by ring.
  replace ((ua - ub) / 1000000 + ((da - db) * 86400 + (sa - sb)))
    with ((ua - ub) / 1000000 + (sa - sb) + (da - db) * 86400) by ring.
  rewrite Z.mod_add by lia. reflexivity.
Qed.

Lemma sub_seconds_range (a b : datetime) :
  0 <= seconds (Datetime.sub a b) < 86400.
Proof.
  rewrite sub_seconds_mod. apply Z.mod_pos_bound. lia.
Qed.

Lemma sub_seconds_self (a : datetime) : seconds (Datetime.sub a a) = 0.
Proof.
  rewrite sub_seconds_mod. unfold whole_seconds_between.
  rewrite Z.sub_diag. reflexivity.
Qed.

(** ** Signs of float results *)

Lemma binary_round_aux_sign (sx : bool) (mx ex : Z) (lx : location) :
  sign_is sx (binary_round_aux Float.prec Float.emax sx mx ex lx).
Proof.
  unfold binary_round_aux.
  destruct (shr_fexp Float.prec Float.emax mx ex lx) as [mrs' e'].
  destruct (shr_fexp Float.prec Float.emax _ e' loc_Exact) as [mrs'' e''].
  destruct (shr_m mrs''); cbn; trivial.
  destruct (Z.leb e'' _); cbn; trivial.
Qed.

Lemma binary_round_sign (sx : bool) (mx : positive) (ex : Z) :
  sign_is sx (binary_round Float.prec Float.emax sx mx ex).
Proof.
  unfold binary_round.
  destruct (shl_align mx ex _) as [mz ez].
  apply binary_round_aux_sign.
Qed.

Lemma of_int_sign (n : Z) : 0 <= n -> sign_is false (Float.of_int n).
Proof.
  intros Hn. unfold Float.of_int, binary_normalize.
  destruct n as [|p|p]; cbn; trivial.
  - apply binary_round_sign.
  - lia.
Qed.


Lemma div_positive_sign (x y : float) :
  sign_is false x -> is_positive y = true ->
  sign_is false (SFdiv Float.prec Float.emax x y).
Proof.
  intros Hx Hy.
  destruct y as [sy|sy| |sy my ey]; cbn in Hy; try discriminate;
    destruct sy; try discriminate;
    destruct x as [s|s| |s m e]; cbn in Hx; subst; cbn; trivial.
  destruct (SFdiv_core_binary _ _ _ _ _ _) as [[mz ez] lz].
  apply binary_round_aux_sign.
Qed.


Lemma sign_true_not_gt (r : float) :
  sign_is true r ->
  Float.gt r (Float.of_int 1) = false /\ Float.gt r (Float.of_int 0) = false.
Proof.
  intros Hr. destruct r as [s|s| |s m e]; cbn in Hr; subst; split; reflexivity.
Qed.

Lemma sign_false_not_lt (q : float) :
  sign_is false q -> Float.gt (Float.of_int 0) q = false.
Proof.
  intros Hq. destruct q as [s|s| |s m e]; cbn in Hq; subst; reflexivity.
Qed.

Lemma nonpos_le_zero (r : float) :
  is_nonpos r = true ->
  Float.le r (Float.of_int 0) = true
  /\ Float.gt r (Float.of_int 0) = false
  /\ Float.gt r (Float.of_int 1) = false.
Proof.
  intros Hr.
  destruct r as [s|s| |s m e]; cbn in Hr; try discriminate; subst;
    repeat split; reflexivity.
Qed.

Lemma div_by_infinity (x y : float) :
  finite_with_sign false x = true -> is_infinite y = true ->
  exists s, SFdiv Float.prec Float.emax x y = S754_zero s.
Proof.
  intros Hx Hy.
  destruct y as [sy|sy| |sy my ey]; cbn in Hy; try discriminate.
  destruct x as [s|s| |s m e]; cbn in Hx; try discriminate; cbn; eauto.
Qed.

Lemma zero_minus_nonneg (s : bool) (y : float) :
  finite_with_sign false y = true ->
  is_nonpos (Float.sub (S754_zero s) y) = true.
Proof.
  intros Hy.
  destruct y as [sy|sy| |sy my ey]; cbn in Hy; try discriminate;
    destruct sy; try discriminate; destruct s; reflexivity.
Qed.

Lemma all_from_spec (P : Z -> bool) (n : nat) :
  forall z, all_from P z n = true ->
  forall x, z <= x < z + Z.of_nat n -> P x = true.
Proof.
  induction n as [|k IH]; cbn [all_from]; intros z H x Hx.
  - lia.
  - apply andb_true_iff in H. destruct H as [Hz Hrest].
    destruct (Z.eq_dec x z) as [->|Hne]; trivial.
    apply (IH (z + 1)); trivial. lia.
Qed.

(** Every whole number of seconds below one day converts to a zero or a
    positive finite float. *)
Lemma of_int_seconds_finite (n : Z) :
  0 <= n < 86400 -> finite_with_sign false (Float.of_int n) = true.
Proof.
  intros Hn.
  apply (all_from_spec (fun k => finite_with_sign false (Float.of_int k))
                       (Z.to_nat 86400) 0).
  - vm_compute. reflexivity.
  - rewrite Z2Nat.id; lia.
Qed.

(** ** The script, step by step *)

Section ScriptFacts.

Context {J : JsonText} {L : PyLib}.

Lemma add_traces_nil (w : world) : add_traces [] w = w.
Proof. destruct w; unfold add_traces; cbn. now rewrite app_nil_r. Qed.

Lemma add_trace_traces (e : effect) (w : world) :
  add_trace e w = add_traces [e] w.
Proof. reflexivity. Qed.

Lemma add_traces_app (a b : list effect) (w : world) :
  add_traces b (add_traces a w) = add_traces (a ++ b) w.
Proof. unfold add_traces; cbn. now rewrite app_assoc. Qed.

Lemma published_app (a b : list effect) :
  published (a ++ b) = published a ++ published b.
Proof.
  induction a as [|e a IH]; cbn; trivial.
  destruct e; cbn; now rewrite IH.
Qed.

Lemma sleeps_app (a b : list effect) :
  sleeps (a ++ b) = sleeps a ++ sleeps b.
Proof.
  induction a as [|e a IH]; cbn; trivial.
  destruct e; cbn; now rewrite IH.
Qed.

Lemma published_publishes (topic : str) (events : list json_text) :
  published (map (PublisherPublish topic) events) = map (pair topic) events.
Proof. induction events as [|e es IH]; cbn; now rewrite ?IH. Qed.

Lemma sleeps_publishes (topic : str) (events : list json_text) :
  sleeps (map (PublisherPublish topic) events) = [].
Proof. induction events as [|e es IH]; cbn; trivial. Qed.

Lemma published_flush_trace (topic : str) (events : list json_text) (ts : pyval) :
  published (flush_trace topic events ts) = map (pair topic) events.
Proof.
  destruct events as [|e0 rest]; trivial.
  unfold flush_trace. cbn [published]. apply published_publishes.
Qed.

Lemma sleeps_flush_trace (topic : str) (events : list json_text) (ts : pyval) :
  sleeps (flush_trace topic events ts) = [].
Proof.
  destruct events as [|e0 rest]; trivial.
  unfold flush_trace. cbn [sleeps]. apply sleeps_publishes.
Qed.

Lemma published_sleep_trace (secs : float) : published (sleep_trace secs) = [].
Proof. unfold sleep_trace. destruct (Float.gt _ _); reflexivity. Qed.

Lemma for_each_publish (topic : str) (events : list json_text) (w : world) :
  for_each events (fun event_data => publisher_publish topic event_data) w
  = (Ret tt, add_traces (map (PublisherPublish topic) events) w).
Proof.
  revert w. induction events as [|e es IH]; intros w; cbn [for_each map].
  - now rewrite add_traces_nil.
  - unfold bind, publisher_publish, emit at 1. rewrite IH.
    now rewrite add_trace_traces, add_traces_app.
Qed.

Lemma publish_nil (topic : str) (w : world) :
  publish topic [] w = (Raise IndexError, w).
Proof. reflexivity. Qed.

Lemma publish_cons (topic : str) (e0 : json_text) (rest : list json_text)
      (w : world) :
  publish topic (e0 :: rest) w =
  match json_loads e0 with
  | None => (Raise ValueError, add_trace (Print e0) w)
  | Some d =>
      match dict_getitem d "timestamp" with
      | Raise e => (Raise e, add_trace (Print e0) w)
      | Ret ts => (Ret tt, add_traces (flush_trace topic (e0 :: rest) ts) w)
      end
  end.
Proof.
  unfold publish.
  replace (0 <? Z.of_nat (List.length (e0 :: rest))) with true
    by (symmetry; apply Z.ltb_lt; cbn [List.length]; lia).
  unfold bind at 1. cbn [lift list_getitem nth_error].
  unfold bind at 1, print, emit at 1.
  unfold bind at 1, lift at 1.
  destruct (json_loads e0) as [d|]; cbn [of_option]; trivial.
  unfold bind at 1, lift at 1.
  destruct (dict_getitem d "timestamp") as [ts|e]; trivial.
  unfold bind, logging_info, emit at 1.
  rewrite for_each_publish.
  now rewrite !add_trace_traces, !add_traces_app.
Qed.

Lemma publish_ok (topic : str) (events : list json_text) (w w' : world) :
  publish topic events w = (Ret tt, w') ->
  exists ts, events <> [] /\ w' = add_traces (flush_trace topic events ts) w.
Proof.
  destruct events as [|e0 rest].
  - rewrite publish_nil. discriminate.
  - rewrite publish_cons.
    destruct (json_loads e0) as [d|]; try discriminate.
    destruct (dict_getitem d "timestamp") as [ts|e]; try discriminate.
    intros H. injection H as <-. exists ts. split; [discriminate|reflexivity].
Qed.

Section Loop.

Variable topic : str.
Variables firstObsTime programStart : datetime.
Variable speedFactor : float.

Lemma compute_sleep_secs_eq (obs_time : datetime) (w : world) :
  compute_sleep_secs firstObsTime programStart speedFactor obs_time w
  = (sleep_secs_at firstObsTime programStart speedFactor obs_time
                   (w_clock w (w_ticks w)),
     tick w).
Proof.
  unfold compute_sleep_secs, sleep_secs_at, bind, utcnow, lift, ret, tick.
  destruct (Float.truediv _ _); reflexivity.
Qed.

(** The loop body as a case analysis on what it computes. *)
Lemma simulate_body_eq (line : bytes) (acc : list json_text) (w : world) :
  simulate_body topic firstObsTime programStart speedFactor line acc w =
  match get_timestamp line with
  | Raise e => (Raise e, w)
  | Ret obs_time =>
      match sleep_secs_at firstObsTime programStart speedFactor obs_time
                          (w_clock w (w_ticks w)) with
      | Raise e => (Raise e, tick w)
      | Ret secs =>
          if Float.gt secs (Float.of_int 1) then
            match publish topic acc (tick w) with
            | (Raise e, w1) => (Raise e, w1)
            | (Ret _, w1) =>
                match sleep_secs_at firstObsTime programStart speedFactor
                                    obs_time (w_clock w1 (w_ticks w1)) with
                | Raise e => (Raise e, tick w1)
                | Ret to_sleep_secs =>
                    match sleep_refusal to_sleep_secs with
                    | Some e =>
                        (Raise e,
                         add_traces [LoggingInfo (LogSleeping to_sleep_secs)]
                                    (tick w1))
                    | None =>
                        let w2 :=
                          add_traces (sleep_trace to_sleep_secs) (tick w1) in
                        match convert_csv_to_json line with
                        | Ret j => (Ret [j], w2)
                        | Raise e => (Raise e, w2)
                        end
                    end
                end
            end
          else
            match convert_csv_to_json line with
            | Ret j => (Ret (acc ++ [j]), tick w)
            | Raise e => (Raise e, tick w)
            end
      end
  end.
Proof.
  unfold simulate_body.
  unfold bind at 1, lift at 1.
  destruct (get_timestamp line) as [obs_time|e]; trivial.
  unfold bind at 1. rewrite compute_sleep_secs_eq.
  destruct (sleep_secs_at _ _ _ _ _) as [secs|e]; trivial.
  destruct (Float.gt secs (Float.of_int 1)).
  - unfold bind at 1. unfold bind at 1. unfold bind at 1.
    destruct (publish topic acc (tick w)) as [[[]|e] w1]; trivial.
    unfold bind at 1. rewrite compute_sleep_secs_eq.
    destruct (sleep_secs_at _ _ _ _ _) as [secs2|e]; trivial.
    unfold sleep_refusal, sleep_trace.
    destruct (Float.gt secs2 (Float.of_int 0)).
    + unfold bind at 1. unfold bind at 1, logging_info, time_sleep, emit at 1.
      rewrite add_trace_traces.
      destruct (sleep_error secs2) as [e|]; [reflexivity|].
      cbn [option_map]. unfold emit. rewrite add_trace_traces, add_traces_app. cbn [app].
      unfold ret at 1. unfold bind, lift, ret.
      destruct (convert_csv_to_json line); reflexivity.
    + rewrite add_traces_nil.
      unfold bind, lift, ret.
      destruct (convert_csv_to_json line); reflexivity.
  - unfold bind, lift, ret.
    destruct (convert_csv_to_json line); reflexivity.
Qed.

Lemma for_lines_cons {S : Type} (body : bytes -> S -> M S) (line : bytes)
      (rest : list bytes) (acc : S) (w : world) :
  for_lines body (line :: rest) acc w =
  match body line acc (set_fpos (Datatypes.S (fpos (w_ifp w))) w) with
  | (Ret acc', w') => for_lines body rest acc' w'
  | (Raise e, w') => (Raise e, w')
  end.
Proof. reflexivity. Qed.

End Loop.

End ScriptFacts.

(** ** Pass-through of the records *)

Section PassThrough.

Context {J : JsonText} {L : PyLib}.

Variable topic : str.
Variables firstObsTime programStart : datetime.
Variable speedFactor : float.

Lemma for_lines_pass_through (lines : list bytes) :
  forall (acc acc' : list json_text) (w w' : world),
    for_lines (simulate_body topic firstObsTime programStart speedFactor)
              lines acc w = (Ret acc', w') ->
    exists js,
      map_result convert_csv_to_json lines = Ret js
      /\ published (w_trace w') ++ map (pair topic) acc'
         = published (w_trace w) ++ map (pair topic) (acc ++ js).
Proof.
  induction lines as [|line rest IH]; intros acc acc' w w' H.
  - cbn in H. injection H as <- <-. exists []. now rewrite app_nil_r.
  - rewrite for_lines_cons, simulate_body_eq in H.
    cbn [map_result].
    destruct (get_timestamp line) as [obs_time|e]; try discriminate.
    destruct (sleep_secs_at _ _ _ _ _) as [secs|e]; try discriminate.
    destruct (Float.gt secs (Float.of_int 1)).
    + destruct (publish topic acc _) as [[[]|e] w1] eqn:Hpub; try discriminate.
      destruct (sleep_secs_at _ _ _ _ _) as [secs2|e]; try discriminate.
      destruct (sleep_refusal secs2) as [e|]; try discriminate.
      destruct (convert_csv_to_json line) as [j|e]; try discriminate.
      apply publish_ok in Hpub. destruct Hpub as [ts [_ ->]].
      apply IH in H. destruct H as [js [Hjs Heq]].
      exists (j :: js). rewrite Hjs. split; trivial.
      rewrite Heq. cbn [w_trace add_traces tick set_ticks set_fpos].
      rewrite !published_app, published_flush_trace, published_sleep_trace.
      rewrite app_nil_r, !map_app, <- !app_assoc. reflexivity.
    + destruct (convert_csv_to_json line) as [j|e]; try discriminate.
      apply IH in H. destruct H as [js [Hjs Heq]].
      exists (j :: js). rewrite Hjs. split; trivial.
      rewrite Heq. cbn [w_trace tick set_ticks set_fpos].
      rewrite <- app_assoc. reflexivity.
Qed.

(** C1. Whenever [simulate] completes, the messages it handed to the
    publisher, in the order of the calls and across all flushes (those
    inside the loop and the final one), are exactly the encoded records of
    the lines left in the input, in input order: nothing lost, nothing
    duplicated, nothing reordered. *)
Theorem simulate_pass_through (w w' : world) :
  simulate topic firstObsTime programStart speedFactor w = (Ret tt, w') ->
  exists js,
    map_result convert_csv_to_json (remaining (w_ifp w)) = Ret js
    /\ published (w_trace w')
       = published (w_trace w) ++ map (pair topic) js.
Proof.
  unfold simulate, bind, for_line_in_ifp. intros H.
  destruct (for_lines _ _ _ w) as [[acc|e] w1] eqn:Hloop; try discriminate.
  apply for_lines_pass_through in Hloop. destruct Hloop as [js [Hjs Heq]].
  apply publish_ok in H. destruct H as [ts [_ ->]].
  exists js. split; trivial.
  cbn [w_trace add_traces].
  rewrite published_app, published_flush_trace. exact Heq.
Qed.

End PassThrough.

(** ** The clock model *)

Section ClockModel.

Context {J : JsonText} {L : PyLib}.

Lemma sleep_secs_at_of_day (firstObsTime programStart : datetime)
      (speedFactor : float) (obs_time now : datetime) :
  Float.is_zero speedFactor = false ->
  sleep_secs_at firstObsTime programStart speedFactor obs_time now
  = Ret (requiredSleepSeconds_of_day firstObsTime programStart speedFactor
                                     obs_time now).
Proof.
  intros Hsf.
  unfold sleep_secs_at, requiredSleepSeconds_of_day, Float.truediv.
  rewrite Hsf. cbn [result_bind].
  now rewrite !sub_seconds_mod.
Qed.

(** C2, as the code has it. For a non-zero [speedFactor],
    [compute_sleep_secs] returns simElapsed minus wallElapsed, where
    wallElapsed is the whole seconds between [now] and [programStart]
    reduced modulo 86400 and simElapsed is the whole seconds between
    [obs_time] and [firstObsTime] reduced modulo 86400, divided by
    [speedFactor] as floats. When both differences lie within one day this is the
    spec's [requiredSleepSeconds]. The value is a function of these five
    inputs; the call changes nothing in the world except that it has taken
    one reading of the clock. The result can be negative and can be zero. *)
Theorem compute_sleep_secs_of_day
        (firstObsTime programStart : datetime) (speedFactor : float)
        (obs_time : datetime) (w : world) :
  Float.is_zero speedFactor = false ->
  let now := w_clock w (w_ticks w) in
  compute_sleep_secs firstObsTime programStart speedFactor obs_time w
  = (Ret (requiredSleepSeconds_of_day firstObsTime programStart speedFactor
                                      obs_time now),
     tick w)
  /\ (0 <= whole_seconds_between obs_time firstObsTime < 86400 ->
      0 <= whole_seconds_between now programStart < 86400 ->
      requiredSleepSeconds_of_day firstObsTime programStart speedFactor
                                  obs_time now
      = requiredSleepSeconds firstObsTime programStart speedFactor
                             obs_time now)
  /\ is_negative (requiredSleepSeconds_of_day Example.T Example.wall Example.one
                                              Example.T (Example.wall_plus 3))
     = true
  /\ Float.is_zero (requiredSleepSeconds_of_day Example.T Example.wall
                                                Example.one Example.T
                                                Example.wall)
     = true.
Proof.
  intros Hsf now. repeat split.
  - rewrite compute_sleep_secs_eq. fold now.
    now rewrite sleep_secs_at_of_day.
  - intros Hobs Hnow. unfold requiredSleepSeconds_of_day, requiredSleepSeconds.
    now rewrite !Z.mod_small.
Qed.

End ClockModel.

(** C2, as worded, fails once a difference reaches one day: a clock reading
    one day and five seconds after [programStart] gives a wall elapsed time
    of 5 seconds, not of 86405. *)
Lemma compute_sleep_secs_wraps_after_a_day :
  let w := Example.start (fun _ => Example.wall_next_day 5) [] 0 in
  fst (compute_sleep_secs (J := PyRef.json) Example.T Example.wall Example.one
                          Example.T w)
  <> Ret (requiredSleepSeconds Example.T Example.wall Example.one Example.T
                               (Example.wall_next_day 5))
  /\ fst (compute_sleep_secs (J := PyRef.json) Example.T Example.wall
                              Example.one Example.T w)
     = Ret (Float.of_int (-5))
  /\ requiredSleepSeconds Example.T Example.wall Example.one Example.T
                           (Example.wall_next_day 5)
     = Float.of_int (-86405).
Proof.
  cbv zeta. split; [|split].
  - vm_compute. discriminate.
  - vm_compute. reflexivity.
  - vm_compute. reflexivity.
Qed.

Lemma compute_sleep_secs_of_day_witness :
  Float.is_zero Example.one = false
  /\ compute_sleep_secs (J := PyRef.json) Example.T Example.wall Example.one
                        (Example.T_plus 2)
                        (Example.start Example.frozen [] 0)
     = (Ret (Float.of_int 2), tick (Example.start Example.frozen [] 0)).
Proof.
  split; [reflexivity|].
  exact (proj1 (compute_sleep_secs_of_day (J := PyRef.json)
                  Example.T Example.wall Example.one (Example.T_plus 2)
                  (Example.start Example.frozen [] 0) eq_refl)).
Defined.

Lemma simulate_pass_through_witness :
  let w := Example.start Example.frozen
             [Example.header; Example.rec0; Example.rec1; Example.rec2] 1 in
  let w' := snd (simulate (L := PyRef.lib) Example.topic Example.T Example.wall
                          Example.one w) in
  simulate (L := PyRef.lib) Example.topic Example.T Example.wall Example.one w
  = (Ret tt, w')
  /\ exists js,
      map_result (convert_csv_to_json (L := PyRef.lib)) (remaining (w_ifp w))
      = Ret js
      /\ published (w_trace w')
         = published (w_trace w) ++ map (pair Example.topic) js.
Proof.
  cbv zeta. split.
  - vm_compute. reflexivity.
  - apply (simulate_pass_through (L := PyRef.lib)
             Example.topic Example.T Example.wall Example.one).
    vm_compute. reflexivity.
Defined.

(** ** Truncation of the elapsed times *)

(** C9. Both elapsed times of the clock model are the [seconds] field of a
    [timedelta]: the whole seconds between the two instants (fractions
    rounded down), reduced modulo 86400. So each lies in [0, 86400): whole
    days drop out, and an observation time before [firstObsTime] still
    gives a non-negative number of seconds, hence, for a positive
    [speedFactor], a simulated elapsed time that is not below zero. *)
Theorem elapsed_seconds_of_day {J : JsonText} {L : PyLib}
        (firstObsTime programStart : datetime) (speedFactor : float)
        (obs_time : datetime) (w : world) :
  let now := w_clock w (w_ticks w) in
  let sim_secs := seconds (Datetime.sub obs_time firstObsTime) in
  let wall_secs := seconds (Datetime.sub now programStart) in
  fst (compute_sleep_secs firstObsTime programStart speedFactor obs_time w)
  = result_bind (Float.truediv (Float.of_int sim_secs) speedFactor)
                (fun q => Ret (Float.sub q (Float.of_int wall_secs)))
  /\ sim_secs = whole_seconds_between obs_time firstObsTime mod 86400
  /\ wall_secs = whole_seconds_between now programStart mod 86400
  /\ 0 <= sim_secs < 86400
  /\ 0 <= wall_secs < 86400
  /\ (forall (a b : datetime) (n : Z),
         instant_us a = instant_us b + n * 86400000000 ->
         seconds (Datetime.sub a b) = 0)
  /\ (is_positive speedFactor = true ->
      Float.gt (Float.of_int 0)
               (SFdiv Float.prec Float.emax (Float.of_int sim_secs) speedFactor)
      = false)
  /\ seconds (Datetime.sub (Example.wall_next_day 5) Example.wall) = 5
  /\ seconds (Datetime.sub Example.T (Example.T_plus 10)) = 86390
  /\ seconds (Datetime.sub Example.T_half Example.T) = 0.
Proof.
  intros now sim_secs wall_secs.
  split; [|split; [|split; [|split; [|split; [|split; [|split]]]]]].
  - rewrite compute_sleep_secs_eq. reflexivity.
  - apply sub_seconds_mod.
  - apply sub_seconds_mod.
  - apply sub_seconds_range.
  - apply sub_seconds_range.
  - intros a b n H. rewrite sub_seconds_mod. unfold whole_seconds_between.
    rewrite H.
    replace (instant_us b + n * 86400000000 - instant_us b)
      with (n * 86400 * 1000000) by ring.
    rewrite Z.div_mul by lia. apply Z.mod_mul. lia.
  - intros Hsf. apply sign_false_not_lt. apply div_positive_sign; trivial.
    apply of_int_sign. apply sub_seconds_range.
  - split; [|split]; vm_compute; reflexivity.
Qed.

(** ** The flush and sleep decision of one iteration *)

Section Decision.

Context {J : JsonText} {L : PyLib}.

Variable topic : str.
Variables firstObsTime programStart : datetime.
Variable speedFactor : float.

Lemma sleep_secs_at_twice (obs_time now now' : datetime) (secs : float) :
  sleep_secs_at firstObsTime programStart speedFactor obs_time now = Ret secs ->
  exists secs',
    sleep_secs_at firstObsTime programStart speedFactor obs_time now'
    = Ret secs'.
Proof.
  unfold sleep_secs_at. destruct (Float.truediv _ _); cbn; [eauto|discriminate].
Qed.

(** C5, as the code has it. For a record whose timestamp parses and
    whose required sleep is [secs]: if [secs > 1] does not hold, nothing is
    flushed or slept and the encoded record is appended to the accumulator;
    if [secs > 1], the whole accumulator is passed to [publish] and the
    required sleep is computed again from the next clock reading. When
    that value is not [> 0] the script does not sleep. When it is [> 0]
    the script logs it and calls [time.sleep] with exactly that value: the
    call sleeps, or, for a duration that [time.sleep] refuses, raises, and
    the iteration ends there, the record neither encoded nor kept. In the
    cases without a failure the encoded record becomes the only element of
    a fresh accumulator. *)
Theorem simulate_body_flush_decision
        (line : bytes) (acc : list json_text) (w : world)
        (obs_time : datetime) (secs : float) :
  get_timestamp line = Ret obs_time ->
  fst (compute_sleep_secs firstObsTime programStart speedFactor obs_time w)
  = Ret secs ->
  let body := simulate_body topic firstObsTime programStart speedFactor in
  (Float.gt secs (Float.of_int 1) = false ->
   body line acc w
   = match convert_csv_to_json line with
     | Ret j => (Ret (acc ++ [j]), tick w)
     | Raise e => (Raise e, tick w)
     end)
  /\ (Float.gt secs (Float.of_int 1) = true ->
      (forall e w1,
          publish topic acc (tick w) = (Raise e, w1) ->
          body line acc w = (Raise e, w1))
      /\ (forall w1,
             publish topic acc (tick w) = (Ret tt, w1) ->
             exists ts to_sleep_secs,
               w_trace w1 = w_trace w ++ flush_trace topic acc ts
               /\ fst (compute_sleep_secs firstObsTime programStart speedFactor
                                          obs_time w1)
                  = Ret to_sleep_secs
               /\ (Float.gt to_sleep_secs (Float.of_int 0) = false ->
                   body line acc w
                   = match convert_csv_to_json line with
                     | Ret j => (Ret [j], tick w1)
                     | Raise e => (Raise e, tick w1)
                     end)
               /\ (Float.gt to_sleep_secs (Float.of_int 0) = true ->
                   let logged :=
                     add_trace (LoggingInfo (LogSleeping to_sleep_secs))
                               (tick w1) in
                   (sleep_error to_sleep_secs = None ->
                    body line acc w
                    = let w2 := add_trace (TimeSleep to_sleep_secs) logged in
                      match convert_csv_to_json line with
                      | Ret j => (Ret [j], w2)
                      | Raise e => (Raise e, w2)
                      end)
                   /\ (forall e,
                          sleep_error to_sleep_secs = Some e ->
                          body line acc w = (Raise (exn_of_sleep e), logged))))).
Proof.
  intros Hts Hsecs body. subst body.
  rewrite compute_sleep_secs_eq in Hsecs. cbn [fst] in Hsecs.
  split; [intros Hgt | intros Hgt; split; [intros e w1 Hpub | intros w1 Hpub]];
    rewrite simulate_body_eq, Hts, Hsecs, Hgt; trivial.
  - now rewrite Hpub.
  - rewrite Hpub.
    destruct (sleep_secs_at_twice _ _ (w_clock w1 (w_ticks w1)) _ Hsecs)
      as [secs' Hsecs'].
    apply publish_ok in Hpub. destruct Hpub as [ts [_ Hw1]].
    exists ts, secs'. split; [|split; [|split]].
    + subst w1. reflexivity.
    + rewrite compute_sleep_secs_eq. exact Hsecs'.
    + intros Hpos. rewrite Hsecs'. unfold sleep_refusal, sleep_trace.
      rewrite Hpos. now rewrite add_traces_nil.
    + intros Hpos. rewrite Hsecs'. unfold sleep_refusal, sleep_trace.
      rewrite Hpos. cbv zeta. split.
      * intros Hok. rewrite Hok.
        now rewrite !add_trace_traces, add_traces_app.
      * intros e He. now rewrite He.
Qed.

(** *** Runs in which the threshold is never exceeded *)

Hypothesis never_above_threshold :
  forall obs_time now secs,
    sleep_secs_at firstObsTime programStart speedFactor obs_time now = Ret secs ->
    Float.gt secs (Float.of_int 1) = false.

Lemma simulate_body_no_flush (line : bytes) (acc : list json_text) (w : world) :
  simulate_body topic firstObsTime programStart speedFactor line acc w =
  match get_timestamp line with
  | Raise e => (Raise e, w)
  | Ret obs_time =>
      match sleep_secs_at firstObsTime programStart speedFactor obs_time
                          (w_clock w (w_ticks w)) with
      | Raise e => (Raise e, tick w)
      | Ret _ =>
          match convert_csv_to_json line with
          | Ret j => (Ret (acc ++ [j]), tick w)
          | Raise e => (Raise e, tick w)
          end
      end
  end.
Proof.
  rewrite simulate_body_eq.
  destruct (get_timestamp line) as [obs_time|e]; trivial.
  destruct (sleep_secs_at _ _ _ _ _) as [secs|e] eqn:Hsecs; trivial.
  now rewrite (never_above_threshold _ _ _ Hsecs).
Qed.

Lemma for_lines_no_flush (lines : list bytes) :
  forall (acc : list json_text) (w : world),
    w_trace (snd (for_lines
                    (simulate_body topic firstObsTime programStart speedFactor)
                    lines acc w))
    = w_trace w.
Proof.
  induction lines as [|line rest IH]; intros acc w; trivial.
  rewrite for_lines_cons, simulate_body_no_flush.
  destruct (get_timestamp line) as [obs_time|e]; trivial.
  destruct (sleep_secs_at _ _ _ _ _) as [secs|e]; trivial.
  destruct (convert_csv_to_json line) as [j|e]; trivial.
  now rewrite IH.
Qed.

Lemma publish_sleeps (events : list json_text) (w : world) :
  sleeps (w_trace (snd (publish topic events w))) = sleeps (w_trace w).
Proof.
  destruct events as [|e0 rest]; trivial.
  rewrite publish_cons.
  destruct (json_loads e0) as [d|]; cbn [snd add_trace w_trace].
  - destruct (dict_getitem d "timestamp") as [ts|e];
      cbn [snd add_trace add_traces w_trace];
      rewrite sleeps_app, ?sleeps_flush_trace; cbn; now rewrite app_nil_r.
  - rewrite sleeps_app. cbn. now rewrite app_nil_r.
Qed.

Lemma simulate_no_sleep (w : world) :
  sleeps (w_trace (snd (simulate topic firstObsTime programStart speedFactor w)))
  = sleeps (w_trace w).
Proof.
  unfold simulate, bind, for_line_in_ifp.
  pose proof (for_lines_no_flush (remaining (w_ifp w)) [] w) as Hloop.
  destruct (for_lines _ _ _ w) as [[acc|e] w1]; cbn [snd] in *.
  - now rewrite publish_sleeps, Hloop.
  - now rewrite Hloop.
Qed.

End Decision.

(** ** Extreme speed factors *)

Lemma infinite_speed_sleep_secs (firstObsTime programStart : datetime)
      (speedFactor : float) (obs_time now : datetime) :
  is_infinite speedFactor = true ->
  exists secs,
    sleep_secs_at firstObsTime programStart speedFactor obs_time now = Ret secs
    /\ is_nonpos secs = true.
Proof.
  intros Hinf. unfold sleep_secs_at, Float.truediv.
  replace (Float.is_zero speedFactor) with false
    by (destruct speedFactor; cbn in Hinf; try discriminate; reflexivity).
  cbn [result_bind].
  destruct (div_by_infinity
              (Float.of_int (seconds (Datetime.sub obs_time firstObsTime)))
              speedFactor) as [s ->]; trivial.
  - apply of_int_seconds_finite, sub_seconds_range.
  - eexists. split; [reflexivity|].
    apply zero_minus_nonneg, of_int_seconds_finite, sub_seconds_range.
Qed.


(** C7, as worded, fails for finite speed factors however large: with the
    largest finite float as speed factor, a record one second after the
    first one, read when no wall time has passed, requires a positive
    sleep. *)
Lemma largest_finite_speedFactor_positive_sleep :
  exists secs,
    fst (compute_sleep_secs (J := PyRef.json) Example.T Example.wall
                            Example.max_float (Example.T_plus 1)
                            (Example.start Example.frozen [] 0))
    = Ret secs
    /\ Float.le secs (Float.of_int 0) = false
    /\ Float.gt secs (Float.of_int 0) = true.
Proof.
  eexists. split; [vm_compute; reflexivity|].
  split; vm_compute; reflexivity.
Qed.

(** ** Start-up: topic, header and the peeked timestamp *)

Section Startup.

Context {J : JsonText} {L : PyLib}.

Lemma set_fpos_same (w : world) : set_fpos (fpos (w_ifp w)) w = w.
Proof. destruct w as [c t tp [ls p] tr]. reflexivity. Qed.

Lemma set_fpos_twice (p q : nat) (w : world) :
  set_fpos q (set_fpos p w) = set_fpos q w.
Proof. reflexivity. Qed.

Lemma peek_timestamp_eq (w : world) :
  peek_timestamp w
  = (get_timestamp (hd EmptyString (remaining (w_ifp w))), w).
Proof.
  unfold peek_timestamp, bind, ifp_tell, ifp_readline, ifp_seek, lift, remaining.
  destruct (nth_error (flines (w_ifp w)) (fpos (w_ifp w))) as [line|] eqn:Hn.
  - rewrite set_fpos_twice, set_fpos_same.
    replace (hd EmptyString (skipn _ _)) with line; trivial.
    revert Hn. generalize (fpos (w_ifp w)) as p, (flines (w_ifp w)) as ls.
    induction p as [|p IH]; intros [|l ls]; cbn; try discriminate.
    + now intros [= ->].
    + apply IH.
  - rewrite set_fpos_same.
    replace (hd EmptyString (skipn _ _)) with EmptyString; trivial.
    revert Hn. generalize (fpos (w_ifp w)) as p, (flines (w_ifp w)) as ls.
    induction p as [|p IH]; intros [|l ls]; cbn; try discriminate; trivial.
    apply IH.
Qed.

Lemma ensure_topic_ok (event_type : str) (w : world) :
  fst (ensure_topic event_type w) = Ret tt
  /\ w_ifp (snd (ensure_topic event_type w)) = w_ifp w
  /\ published (w_trace (snd (ensure_topic event_type w)))
     = published (w_trace w)
  /\ sleeps (w_trace (snd (ensure_topic event_type w))) = sleeps (w_trace w).
Proof.
  unfold ensure_topic.
  destruct (existsb _ _); cbn; rewrite ?published_app, ?sleeps_app; cbn;
    rewrite ?app_nil_r; auto.
Qed.

Lemma main_startup (speedFactor : float) (project : str) (w : world)
      (header line0 : bytes) (rest : list bytes) (t : datetime) :
  flines (w_ifp w) = header :: line0 :: rest ->
  get_timestamp line0 = Ret t ->
  main speedFactor project w
  = simulate (topic_path project TOPIC) t (start_time project w) speedFactor
             (after_startup project t w)
  /\ remaining (w_ifp (after_startup project t w)) = line0 :: rest.
Proof.
  intros Hfile Hts.
  destruct (ensure_topic_ok (topic_path project TOPIC) w) as [Hok [Hifp _]].
  unfold main, after_startup, start_time.
  destruct (ensure_topic (topic_path project TOPIC) w) as [r w1] eqn:Hens.
  cbn [fst snd] in *. subst r.
  split.
  - unfold bind at 1. rewrite Hens.
    unfold bind at 1, utcnow at 1.
    unfold bind at 1, ifp_seek at 1.
    unfold bind at 1, ifp_readline at 1.
    cbn [w_ifp set_fpos set_ticks fpos flines].
    rewrite Hifp, Hfile. cbn [nth_error].
    unfold bind at 1. rewrite peek_timestamp_eq.
    unfold remaining. cbn [w_ifp set_fpos set_ticks fpos flines skipn hd].
    rewrite Hifp, Hfile. cbn [skipn hd]. rewrite Hts.
    unfold bind at 1, logging_info, emit.
    unfold tick, set_fpos, set_ticks, add_trace. cbn.
    rewrite Hifp, Hfile. reflexivity.
  - unfold remaining. cbn. rewrite Hifp, Hfile. reflexivity.
Qed.

End Startup.

(** ** The input position *)

Section Position.

Context {J : JsonText} {L : PyLib}.

Variable topic : str.
Variables firstObsTime programStart : datetime.
Variable speedFactor : float.

Lemma publish_ifp (events : list json_text) (w : world) :
  w_ifp (snd (publish topic events w)) = w_ifp w.
Proof.
  destruct events as [|e0 rest]; trivial.
  rewrite publish_cons.
  destruct (json_loads e0) as [d|]; trivial.
  destruct (dict_getitem d "timestamp"); trivial.
Qed.

Lemma simulate_body_ifp (line : bytes) (acc : list json_text) (w : world) :
  w_ifp (snd (simulate_body topic firstObsTime programStart speedFactor
                            line acc w))
  = w_ifp w.
Proof.
  rewrite simulate_body_eq.
  destruct (get_timestamp line) as [obs_time|e]; trivial.
  destruct (sleep_secs_at _ _ _ _ _) as [secs|e]; trivial.
  destruct (Float.gt secs (Float.of_int 1)).
  - pose proof (publish_ifp acc (tick w)) as Hp.
    destruct (publish topic acc (tick w)) as [[[]|e] w1]; cbn [snd] in *; trivial.
    destruct (sleep_secs_at _ _ _ _ _) as [secs2|e]; trivial.
    destruct (sleep_refusal secs2) as [e|]; trivial.
    destruct (convert_csv_to_json line); trivial.
  - destruct (convert_csv_to_json line); trivial.
Qed.

(** The loop takes lines off the input one by one, and never more than it
    was given. *)
Lemma for_lines_position (lines : list bytes) :
  forall (acc : list json_text) (w : world),
    let out := for_lines
                 (simulate_body topic firstObsTime programStart speedFactor)
                 lines acc w in
    flines (w_ifp (snd out)) = flines (w_ifp w)
    /\ (fpos (w_ifp (snd out)) <= fpos (w_ifp w) + List.length lines)%nat
    /\ (fpos (w_ifp w) + Nat.min 1 (List.length lines)
        <= fpos (w_ifp (snd out)))%nat
    /\ (forall acc', fst out = Ret acc' ->
                     fpos (w_ifp (snd out))
                     = (fpos (w_ifp w) + List.length lines)%nat).
Proof.
  induction lines as [|line rest IH]; intros acc w; cbv zeta.
  - cbn. repeat split; lia.
  - rewrite for_lines_cons.
    pose proof (simulate_body_ifp line acc
                  (set_fpos (S (fpos (w_ifp w))) w)) as Hb.
    destruct (simulate_body _ _ _ _ line acc _) as [[acc1|e] w1];
      cbn [snd fst] in *.
    + specialize (IH acc1 w1). cbv zeta in IH.
      destruct IH as [Hl [Hle [Hge Heq]]].
      rewrite Hb in *. cbn [set_fpos w_ifp flines fpos List.length] in *.
      repeat split; trivial; try lia.
      intros acc' Hacc. rewrite (Heq acc' Hacc). lia.
    + rewrite Hb. cbn [set_fpos w_ifp flines fpos List.length].
      repeat split; try lia. discriminate.
Qed.

End Position.

(** ** Speed factors that are zero or negative *)

Section NonPositive.

Context {J : JsonText} {L : PyLib}.

Lemma after_startup_clock (project : str) (t : datetime) (w : world) :
  w_clock (after_startup project t w) = w_clock w.
Proof.
  unfold after_startup, ensure_topic.
  destruct (existsb _ _); reflexivity.
Qed.

Lemma after_startup_facts (project : str) (t : datetime) (w : world) :
  fpos (w_ifp (after_startup project t w)) = 1%nat
  /\ published (w_trace (after_startup project t w)) = published (w_trace w)
  /\ sleeps (w_trace (after_startup project t w)) = sleeps (w_trace w).
Proof.
  destruct (ensure_topic_ok (topic_path project TOPIC) w) as [_ [_ [Hp Hs]]].
  unfold after_startup. cbn [add_trace w_trace w_ifp fpos set_fpos tick set_ticks].
  rewrite published_app, sleeps_app, Hp, Hs. cbn. now rewrite !app_nil_r.
Qed.


End NonPositive.



(** ** A record whose timestamp does not parse *)

Section Malformed.

Context {J : JsonText} {L : PyLib}.

Variable topic : str.
Variables firstObsTime programStart : datetime.
Variable speedFactor : float.



End Malformed.


(** ** Peeking the first timestamp *)

(** C10. [peek_timestamp] returns the timestamp of the next line and
    leaves the world, in particular the input position, exactly as it was.
    So, after the header, the first line the loop of [simulate] takes is
    the line whose timestamp was peeked; [firstObsTime] is its own
    observation time, its elapsed whole seconds are 0 and its simulated
    elapsed time is a zero (for a speed factor that is a non-zero number). *)
Theorem peek_timestamp_does_not_consume {J : JsonText} {L : PyLib} (w : world) :
  snd (peek_timestamp w) = w
  /\ fst (peek_timestamp w)
     = get_timestamp (hd EmptyString (remaining (w_ifp w)))
  /\ (forall (speedFactor : float) (project : str) (header line0 : bytes)
             (rest : list bytes) (t : datetime),
         flines (w_ifp w) = header :: line0 :: rest ->
         get_timestamp line0 = Ret t ->
         main speedFactor project w
         = (topublish <-
              for_lines (simulate_body (topic_path project TOPIC) t
                                       (start_time project w) speedFactor)
                        (line0 :: rest) [] ;;
            publish (topic_path project TOPIC) topublish)
             (after_startup project t w)
         /\ seconds (Datetime.sub t t) = 0
         /\ (Float.is_zero speedFactor = false ->
             speedFactor <> Float.nan ->
             exists s,
               Float.truediv (Float.of_int (seconds (Datetime.sub t t)))
                             speedFactor
               = Ret (S754_zero s))).
Proof.
  rewrite peek_timestamp_eq. split; [reflexivity|]. split; [reflexivity|].
  intros speedFactor project header line0 rest t Hfile Hts.
  destruct (main_startup speedFactor project w header line0 rest t Hfile Hts)
    as [Hmain Hrem].
  split; [|split].
  - rewrite Hmain. unfold simulate, bind, for_line_in_ifp. now rewrite Hrem.
  - apply sub_seconds_self.
  - intros Hnz Hnan. rewrite sub_seconds_self. unfold Float.truediv.
    rewrite Hnz.
    clear Hmain Hrem.
    destruct speedFactor as [s|s| |s m e]; cbn in Hnz |- *;
      try discriminate; eauto.
    now elim Hnan.
Qed.

(** ** The three-record scenario *)

(** C6, with whole-second timestamps. Three records stamped T, T+1s and
    T+2s, speed factor 1, a clock that does not advance and equals
    [programStart]: the first two records are accumulated without a flush
    (required sleeps 0 and 1, neither above 1); evaluating the third
    (required sleep 2) flushes records 0 and 1 before it is appended, then
    sleeps 2 seconds; the final flush holds the third record alone. *)
Theorem three_records_two_flushes :
  let lines := [Example.header; Example.rec0; Example.rec1; Example.rec2] in
  let w := Example.start Example.frozen lines 1 in
  let body := simulate_body (L := PyRef.lib) Example.topic Example.T
                            Example.wall Example.one in
  let two := Float.of_int 2 in
  map_result (convert_csv_to_json (L := PyRef.lib))
             [Example.rec0; Example.rec1; Example.rec2]
  = Ret [Example.json0; Example.json1; Example.json2]
  /\ for_lines body [Example.rec0; Example.rec1] [] w
     = (Ret [Example.json0; Example.json1],
        mkworld Example.frozen 2 [] (mkfile lines 3) [])
  /\ body Example.rec2 [Example.json0; Example.json1]
          (mkworld Example.frozen 2 [] (mkfile lines 4) [])
     = (Ret [Example.json2],
        mkworld Example.frozen 4 [] (mkfile lines 4)
                (flush_trace Example.topic [Example.json0; Example.json1]
                             (VStr "2008-11-01 00:00:00")
                 ++ [LoggingInfo (LogSleeping two); TimeSleep two]))
  /\ simulate (L := PyRef.lib) Example.topic Example.T Example.wall
              Example.one w
     = (Ret tt,
        mkworld Example.frozen 4 [] (mkfile lines 4)
                (flush_trace Example.topic [Example.json0; Example.json1]
                             (VStr "2008-11-01 00:00:00")
                 ++ [LoggingInfo (LogSleeping two); TimeSleep two]
                 ++ flush_trace Example.topic [Example.json2]
                                (VStr "2008-11-01 00:00:02"))).
Proof.
  cbv zeta. repeat split; vm_compute; reflexivity.
Qed.

(** C6, as worded, fails: a record stamped half a second after the first
    one does not match [TIME_FORMAT]; the run aborts on it with
    [ValueError] and nothing is flushed at all. *)
Lemma half_second_record_aborts :
  let lines := [Example.header; Example.rec0; Example.rec1_half; Example.rec2] in
  let w := Example.start Example.frozen lines 1 in
  get_timestamp (L := PyRef.lib) Example.rec1_half = Raise ValueError
  /\ simulate (L := PyRef.lib) Example.topic Example.T Example.wall
              Example.one w
     = (Raise ValueError, mkworld Example.frozen 1 [] (mkfile lines 3) []).
Proof.
  cbv zeta. split; vm_compute; reflexivity.
Qed.

(** C5, as worded, fails when the recomputed duration is one that
    [time.sleep] refuses: with a speed factor of 1e-10, a record one second
    after the first requires a sleep of about 1e10 seconds; the accumulator
    is flushed, the sleep is logged, [time.sleep] raises [OverflowError],
    and the record is not appended: the iteration fails without having
    slept. *)
Lemma refused_sleep_drops_record :
  let lines := [Example.header; Example.rec0; Example.rec1] in
  let w := mkworld (J := PyRef.json) Example.frozen 1 [] (mkfile lines 3) [] in
  exists to_sleep_secs,
    simulate_body (L := PyRef.lib) Example.topic Example.T Example.wall
                  Example.slow Example.rec1 [Example.json0] w
    = (Raise OverflowError,
       mkworld Example.frozen 3 [] (mkfile lines 3)
               (flush_trace Example.topic [Example.json0]
                            (VStr "2008-11-01 00:00:00")
                ++ [LoggingInfo (LogSleeping to_sleep_secs)]))
    /\ Float.gt to_sleep_secs (Float.of_int 0) = true
    /\ Float.gt to_sleep_secs (Float.of_int 9000000000) = true
    /\ sleep_error (PyLib := PyRef.lib) to_sleep_secs
       = Some SleepOverflowError.
Proof.
  cbv zeta. eexists. split; [vm_compute; reflexivity|].
  split; [|split]; vm_compute; reflexivity.
Qed.

(** The flush branch on the third record of the three-record run: the two
    accumulated records are flushed, the recomputed sleep of 2 seconds is
    accepted and slept, and the third record starts a fresh accumulator. *)
Lemma simulate_body_flush_decision_witness :
  let lines := [Example.header; Example.rec0; Example.rec1; Example.rec2] in
  let w := mkworld (J := PyRef.json) Example.frozen 2 [] (mkfile lines 4) [] in
  let acc := [Example.json0; Example.json1] in
  let two := Float.of_int 2 in
  let flushed := flush_trace Example.topic acc (VStr "2008-11-01 00:00:00") in
  get_timestamp (L := PyRef.lib) Example.rec2 = Ret (Example.T_plus 2)
  /\ fst (compute_sleep_secs (J := PyRef.json) Example.T Example.wall Example.one
                             (Example.T_plus 2) w)
     = Ret two
  /\ Float.gt two (Float.of_int 1) = true
  /\ publish (L := PyRef.lib) Example.topic acc (tick w)
     = (Ret tt, add_traces flushed (tick w))
  /\ sleep_error (PyLib := PyRef.lib) two = None
  /\ simulate_body (L := PyRef.lib) Example.topic Example.T Example.wall
                   Example.one Example.rec2 acc w
     = (Ret [Example.json2],
        mkworld Example.frozen 4 [] (mkfile lines 4)
                (flushed ++ [LoggingInfo (LogSleeping two); TimeSleep two])).
Proof.
  cbv zeta.
  set (w := mkworld (J := PyRef.json) Example.frozen 2 []
              (mkfile [Example.header; Example.rec0; Example.rec1;
                       Example.rec2] 4) []).
  set (flushed := flush_trace Example.topic [Example.json0; Example.json1]
                              (VStr "2008-11-01 00:00:00")).
  assert (Hts : get_timestamp (L := PyRef.lib) Example.rec2
                = Ret (Example.T_plus 2)) by (vm_compute; reflexivity).
  assert (Hsecs : fst (compute_sleep_secs (J := PyRef.json) Example.T
                         Example.wall Example.one (Example.T_plus 2) w)
                  = Ret (Float.of_int 2)) by (vm_compute; reflexivity).
  assert (Hpub : publish (L := PyRef.lib) Example.topic
                         [Example.json0; Example.json1] (tick w)
                 = (Ret tt, add_traces flushed (tick w)))
    by (vm_compute; reflexivity).
  assert (Hok : sleep_error (PyLib := PyRef.lib) (Float.of_int 2) = None)
    by (vm_compute; reflexivity).
  split; [exact Hts|]. split; [exact Hsecs|]. split; [reflexivity|].
  split; [exact Hpub|]. split; [exact Hok|].
  destruct (proj2 (proj2 (simulate_body_flush_decision (L := PyRef.lib)
                            Example.topic Example.T Example.wall Example.one
                            Example.rec2 [Example.json0; Example.json1] w
                            (Example.T_plus 2) (Float.of_int 2) Hts Hsecs)
                         eq_refl)
                  (add_traces flushed (tick w)) Hpub)
    as (ts & d & _ & Hd & _ & Hsleep).
  assert (Hd2 : d = Float.of_int 2)
    by (vm_compute in Hd; injection Hd as <-; vm_compute; reflexivity).
  subst d.
  rewrite (proj1 (Hsleep eq_refl) Hok).
  vm_compute. reflexivity.
Defined.

(** ** Where an empty flush can and cannot arise *)

Section EmptyFlush.

Context {J : JsonText} {L : PyLib}.

Lemma result_bind_not_IndexError {A B : Type} (r : result A)
      (k : A -> result B) :
  not_IndexError r -> (forall a, not_IndexError (k a)) ->
  not_IndexError (result_bind r k).
Proof.
  unfold not_IndexError. intros Hr Hk.
  destruct r as [a|e]; cbn; [apply Hk|]. congruence.
Qed.

Lemma of_option_not_IndexError {A : Type} (e : exn) (o : option A) :
  e <> IndexError -> not_IndexError (of_option e o).
Proof. unfold not_IndexError. destruct o; cbn; congruence. Qed.

Lemma dict_getitem_not_IndexError (d : dict) (k : str) :
  not_IndexError (dict_getitem d k).
Proof.
  unfold not_IndexError.
  induction d as [|[k' v] d IH]; cbn; [discriminate|].
  destruct (String.eqb k' k); [discriminate|exact IH].
Qed.

Lemma get_timestamp_not_IndexError (line : bytes) :
  not_IndexError (get_timestamp line).
Proof.
  unfold get_timestamp.
  apply result_bind_not_IndexError.
  - apply of_option_not_IndexError. discriminate.
  - intros s. apply of_option_not_IndexError. discriminate.
Qed.

Lemma py_float_not_IndexError (v : pyval) : not_IndexError (py_float v).
Proof.
  destruct v as [s|x|n]; cbn.
  - apply result_bind_not_IndexError.
    + apply of_option_not_IndexError. discriminate.
    + intros x. discriminate.
  - discriminate.
  - destruct (Float.of_int n); discriminate.
Qed.

Lemma py_int_not_IndexError (v : pyval) : not_IndexError (py_int v).
Proof.
  destruct v as [s|x|n]; cbn.
  - apply result_bind_not_IndexError.
    + apply of_option_not_IndexError. discriminate.
    + intros x. discriminate.
  - apply result_bind_not_IndexError.
    + destruct x; cbn; discriminate.
    + intros n. discriminate.
  - discriminate.
Qed.

Lemma convert_field_not_IndexError (conv : pyval -> result pyval)
      (k : str) (d : dict) :
  (forall v, not_IndexError (conv v)) ->
  not_IndexError (convert_field conv k d).
Proof.
  intros Hconv. unfold convert_field.
  apply result_bind_not_IndexError; [apply dict_getitem_not_IndexError|].
  intros v. apply result_bind_not_IndexError; [apply Hconv|].
  intros v'. discriminate.
Qed.

Lemma convert_csv_to_json_not_IndexError (line : bytes) :
  not_IndexError (convert_csv_to_json line).
Proof.
  unfold convert_csv_to_json.
  apply result_bind_not_IndexError;
    [apply of_option_not_IndexError; discriminate|]. intros s.
  repeat (apply result_bind_not_IndexError;
          [apply convert_field_not_IndexError;
           first [apply py_float_not_IndexError | apply py_int_not_IndexError]
          |intros ?]).
  discriminate.
Qed.

Lemma publish_not_IndexError (topic : str) (events : list json_text)
      (w : world) :
  events <> [] -> not_IndexError (fst (publish topic events w)).
Proof.
  destruct events as [|e0 rest]; [congruence|]. intros _.
  rewrite publish_cons.
  destruct (json_loads e0) as [d|]; [|discriminate].
  pose proof (dict_getitem_not_IndexError d "timestamp") as Hd.
  destruct (dict_getitem d "timestamp") as [ts|e]; cbn; [discriminate|].
  unfold not_IndexError in *. congruence.
Qed.

Lemma sleep_refusal_not_IndexError (secs : float) :
  sleep_refusal secs <> Some IndexError.
Proof.
  unfold sleep_refusal.
  destruct (Float.gt secs (Float.of_int 0)); [|discriminate].
  destruct (sleep_error secs) as [[]|]; discriminate.
Qed.

Lemma sleep_secs_at_not_IndexError (firstObsTime programStart : datetime)
      (speedFactor : float) (obs_time now : datetime) :
  not_IndexError (sleep_secs_at firstObsTime programStart speedFactor
                                obs_time now).
Proof.
  unfold sleep_secs_at, Float.truediv.
  destruct (Float.is_zero speedFactor); cbn; discriminate.
Qed.

Section Run.

Variable topic : str.
Variables firstObsTime programStart : datetime.
Variable speedFactor : float.

(** With something accumulated, an iteration never flushes an empty
    batch, and leaves something accumulated. *)
Lemma simulate_body_nonempty (line : bytes) (acc : list json_text) (w : world) :
  acc <> [] ->
  match fst (simulate_body topic firstObsTime programStart speedFactor
                           line acc w) with
  | Ret acc' => acc' <> []
  | Raise e => e <> IndexError
  end.
Proof.
  intros Hacc. rewrite simulate_body_eq.
  pose proof (get_timestamp_not_IndexError line) as Hts.
  pose proof (convert_csv_to_json_not_IndexError line) as Hconv.
  unfold not_IndexError in *.
  destruct (get_timestamp line) as [obs_time|e]; cbn [fst]; [|congruence].
  pose proof (sleep_secs_at_not_IndexError firstObsTime programStart
                speedFactor obs_time (w_clock w (w_ticks w))) as Hs.
  unfold not_IndexError in Hs.
  destruct (sleep_secs_at _ _ _ _ _) as [secs|e]; cbn [fst]; [|congruence].
  destruct (Float.gt secs (Float.of_int 1)).
  - pose proof (publish_not_IndexError topic acc (tick w) Hacc) as Hp.
    unfold not_IndexError in Hp.
    destruct (publish topic acc (tick w)) as [[[]|e] w1]; cbn [fst] in *;
      [|congruence].
    pose proof (sleep_secs_at_not_IndexError firstObsTime programStart
                  speedFactor obs_time (w_clock w1 (w_ticks w1))) as Hs2.
    unfold not_IndexError in Hs2.
    destruct (sleep_secs_at _ _ _ _ _) as [secs2|e]; cbn [fst]; [|congruence].
    pose proof (sleep_refusal_not_IndexError secs2) as Hsl.
    destruct (sleep_refusal secs2) as [e|]; cbn [fst]; [congruence|].
    destruct (convert_csv_to_json line); cbn [fst]; congruence.
  - destruct (convert_csv_to_json line); cbn [fst]; [|congruence].
    intros H. apply app_eq_nil in H. destruct H. contradiction.
Qed.

Lemma for_lines_nonempty (lines : list bytes) :
  forall (acc : list json_text) (w : world),
    acc <> [] ->
    match fst (for_lines
                 (simulate_body topic firstObsTime programStart speedFactor)
                 lines acc w) with
    | Ret acc' => acc' <> []
    | Raise e => e <> IndexError
    end.
Proof.
  induction lines as [|line rest IH]; intros acc w Hacc; [exact Hacc|].
  rewrite for_lines_cons.
  pose proof (simulate_body_nonempty line acc
                (set_fpos (S (fpos (w_ifp w))) w) Hacc) as Hb.
  destruct (simulate_body _ _ _ _ line acc _) as [[acc1|e] w1];
    cbn [fst] in *.
  - apply IH, Hb.
  - exact Hb.
Qed.

End Run.

(** The first record of a run is never above the threshold: its own
    observation time is [firstObsTime]. *)
Lemma first_record_no_flush (t programStart : datetime) (speedFactor : float)
      (now : datetime) (secs : float) :
  sleep_secs_at t programStart speedFactor t now = Ret secs ->
  Float.gt secs (Float.of_int 1) = false.
Proof.
  unfold sleep_secs_at, Float.truediv. rewrite sub_seconds_self.
  pose proof (of_int_seconds_finite _ (sub_seconds_range now programStart))
    as Hfin.
  destruct speedFactor as [s|s| |s m e]; cbn [Float.is_zero result_bind];
    try discriminate; intros H; injection H as <-;
    try (apply nonpos_le_zero; cbn; apply zero_minus_nonneg; exact Hfin).
  reflexivity.
Qed.

(** No run of [main] ends in [IndexError], provided the empty line
    carries no timestamp. *)
Lemma main_not_IndexError (speedFactor : float) (project : str) (w : world) :
  (exists e, get_timestamp EmptyString = Raise e) ->
  not_IndexError (fst (main speedFactor project w)).
Proof.
  unfold not_IndexError. intros [e0 Hempty].
  assert (Hpeek : forall lines,
             match lines with
             | _ :: _ :: _ => False
             | _ => True
             end ->
             flines (w_ifp w) = lines ->
             fst (main speedFactor project w) = Raise e0).
  { intros lines Hshape Hfile.
    destruct (ensure_topic_ok (topic_path project TOPIC) w) as [Hok [Hifp _]].
    unfold main. unfold bind at 1.
    destruct (ensure_topic (topic_path project TOPIC) w) as [r w1].
    cbn [fst snd] in *. subst r.
    unfold bind at 1, utcnow at 1.
    unfold bind at 1, ifp_seek at 1.
    unfold bind at 1, ifp_readline at 1.
    cbn [w_ifp set_fpos set_ticks fpos flines].
    rewrite Hifp, Hfile.
    destruct lines as [|header [|line0 rest]]; try contradiction;
      cbn [nth_error]; unfold bind at 1; rewrite peek_timestamp_eq;
      unfold remaining; cbn [w_ifp set_fpos set_ticks fpos flines];
      rewrite ?Hifp, ?Hfile; cbn [skipn hd]; now rewrite Hempty. }
  pose proof (get_timestamp_not_IndexError EmptyString) as Hne.
  unfold not_IndexError in Hne. rewrite Hempty in Hne.
  assert (Hne0 : e0 <> IndexError) by congruence. clear Hne.
  destruct (flines (w_ifp w)) as [|header [|line0 rest]] eqn:Hfile.
  3: clear Hpeek.
  - rewrite (Hpeek [] I eq_refl). congruence.
  - rewrite (Hpeek [header] I eq_refl). congruence.
  - destruct (get_timestamp line0) as [t|e] eqn:Hts.
    + destruct (main_startup speedFactor project w header line0 rest t
                  Hfile Hts) as [-> Hrem].
      unfold simulate, bind, for_line_in_ifp. rewrite Hrem.
      rewrite for_lines_cons, simulate_body_eq, Hts.
      set (w2 := set_fpos _ (after_startup project t w)).
      pose proof (sleep_secs_at_not_IndexError t (start_time project w)
                    speedFactor t (w_clock w2 (w_ticks w2))) as Hs.
      unfold not_IndexError in Hs.
      destruct (sleep_secs_at _ _ _ _ _) as [secs|e] eqn:Hsecs;
        [|cbn [fst]; congruence].
      rewrite (first_record_no_flush _ _ _ _ _ Hsecs).
      pose proof (convert_csv_to_json_not_IndexError line0) as Hconv.
      unfold not_IndexError in Hconv.
      destruct (convert_csv_to_json line0) as [j|e]; [|cbn [fst]; congruence].
      cbn [app].
      pose proof (for_lines_nonempty (topic_path project TOPIC) t
                    (start_time project w) speedFactor rest [j] (tick w2))
        as Hloop.
      destruct (for_lines _ rest [j] (tick w2)) as [[acc|e] w3];
        cbn [fst] in *.
      * apply publish_not_IndexError, Hloop. discriminate.
      * assert (e <> IndexError) by (apply Hloop; discriminate). congruence.
    + assert (Hmain : fst (main speedFactor project w) = Raise e).
      { destruct (ensure_topic_ok (topic_path project TOPIC) w)
          as [Hok [Hifp _]].
        unfold main. unfold bind at 1.
        destruct (ensure_topic (topic_path project TOPIC) w) as [r w1].
        cbn [fst snd] in *. subst r.
        unfold bind at 1, utcnow at 1.
        unfold bind at 1, ifp_seek at 1.
        unfold bind at 1, ifp_readline at 1.
        cbn [w_ifp set_fpos set_ticks fpos flines].
        rewrite Hifp, Hfile. cbn [nth_error].
        unfold bind at 1. rewrite peek_timestamp_eq.
        unfold remaining. cbn [w_ifp set_fpos set_ticks fpos flines].
        rewrite Hifp, Hfile. cbn [skipn hd]. now rewrite Hts. }
      rewrite Hmain.
      pose proof (get_timestamp_not_IndexError line0) as Hn.
      unfold not_IndexError in Hn. rewrite Hts in Hn. congruence.
Qed.

(** X13. Run from [main], with a library for which the empty line carries
    no timestamp, [publish] is never handed an empty batch: the run never
    ends in [IndexError]. *)
Lemma main_never_flushes_empty (speedFactor : float) (project : str)
      (w : world) :
  (exists e, get_timestamp EmptyString = Raise e) ->
  fst (main speedFactor project w) <> Raise IndexError.
Proof. exact (main_not_IndexError speedFactor project w). Qed.


End EmptyFlush.


(** The executable library is one of those: the empty line has no
    timestamp. *)
Lemma pyref_empty_line_has_no_timestamp :
  get_timestamp (L := PyRef.lib) EmptyString = Raise ValueError.
Proof. vm_compute. reflexivity. Qed.

(** ** Large finite speed factors *)

Lemma fexp_eq (t : Z) :
  fexp Float.prec Float.emax t = Z.max (t - 53) (-1074).
Proof. reflexivity. Qed.

Lemma shr_1_bounds (mrs : shr_record) :
  0 <= shr_m mrs -> 0 <= shr_m (shr_1 mrs) <= shr_m mrs.
Proof.
  destruct mrs as [m r s]. destruct m as [|[p|p|]|p]; cbn; lia.
Qed.

Lemma iter_pos_shr_1_bounds (p : positive) :
  forall mrs : shr_record,
    0 <= shr_m mrs -> 0 <= shr_m (iter_pos shr_1 p mrs) <= shr_m mrs.
Proof.
  induction p as [p IH|p IH|]; intros mrs H; cbn [iter_pos].
  - pose proof (shr_1_bounds mrs H) as H1.
    pose proof (IH (shr_1 mrs) (proj1 H1)) as H2.
    pose proof (IH _ (proj1 H2)) as H3. lia.
  - pose proof (IH mrs H) as H2.
    pose proof (IH _ (proj1 H2)) as H3. lia.
  - apply shr_1_bounds, H.
Qed.

Lemma shr_record_of_loc_m (m : Z) (l : location) :
  shr_m (shr_record_of_loc m l) = m.
Proof. destruct l as [|[]]; reflexivity. Qed.

Lemma shr_fexp_bounds (m e : Z) (l : location) :
  0 <= m ->
  0 <= shr_m (fst (shr_fexp Float.prec Float.emax m e l)) <= m
  /\ snd (shr_fexp Float.prec Float.emax m e l)
     = Z.max e (fexp Float.prec Float.emax (Zdigits2 m + e)).
Proof.
  intros Hm. unfold shr_fexp, shr.
  destruct (fexp Float.prec Float.emax (Zdigits2 m + e) - e) as [|p|p] eqn:Hn;
    cbn [fst snd].
  - rewrite shr_record_of_loc_m. lia.
  - pose proof (iter_pos_shr_1_bounds p (shr_record_of_loc m l)) as H.
    rewrite shr_record_of_loc_m in H. specialize (H Hm). lia.
  - rewrite shr_record_of_loc_m. lia.
Qed.

Lemma digits2_pos_lower (p : positive) :
  2 ^ (Zpos (digits2_pos p) - 1) <= Zpos p.
Proof.
  induction p as [p IH|p IH|]; cbn [digits2_pos].
  - rewrite Pos2Z.inj_succ.
    replace (Z.succ (Zpos (digits2_pos p)) - 1)
      with (Z.succ (Zpos (digits2_pos p) - 1)) by lia.
    rewrite Z.pow_succ_r by lia. lia.
  - rewrite Pos2Z.inj_succ.
    replace (Z.succ (Zpos (digits2_pos p)) - 1)
      with (Z.succ (Zpos (digits2_pos p) - 1)) by lia.
    rewrite Z.pow_succ_r by lia. lia.
  - cbn. lia.
Qed.

Lemma digits2_pos_upper (p : positive) :
  Zpos p < 2 ^ Zpos (digits2_pos p).
Proof.
  induction p as [p IH|p IH|]; cbn [digits2_pos].
  - rewrite Pos2Z.inj_succ, Z.pow_succ_r by lia. lia.
  - rewrite Pos2Z.inj_succ, Z.pow_succ_r by lia. lia.
  - cbn. lia.
Qed.

Lemma Zdigits2_le (m n : Z) :
  0 <= m < 2 ^ n -> 0 <= n -> Zdigits2 m <= n.
Proof.
  intros [Hm Hlt] Hn. destruct m as [|p|p]; cbn [Zdigits2]; [lia| |lia].
  pose proof (digits2_pos_lower p) as Hl.
  assert (H : 2 ^ (Zpos (digits2_pos p) - 1) < 2 ^ n) by lia.
  apply Z.pow_lt_mono_r_iff in H; lia.
Qed.

Lemma round_nearest_even_bounds (m : Z) (l : location) :
  m <= round_nearest_even m l <= m + 1.
Proof.
  destruct l as [|[]]; cbn; try destruct (Z.even m); lia.
Qed.

Lemma iter_xO (p d : positive) :
  Zpos (Pos.iter xO p d) = Zpos p * 2 ^ Zpos d.
Proof.
  induction d as [|d IH] using Pos.peano_ind.
  - cbn. lia.
  - rewrite Pos.iter_succ, Pos2Z.inj_succ, Z.pow_succ_r by lia.
    rewrite Pos2Z.inj_xO, IH. ring.
Qed.

Lemma binary_round_aux_small (mz ez : Z) (lz : location) :
  0 <= mz < 2 ^ 54 -> ez <= -57 ->
  small_quotient (binary_round_aux Float.prec Float.emax false mz ez lz).
Proof.
  intros Hmz Hez. unfold binary_round_aux.
  pose proof (shr_fexp_bounds mz ez lz (proj1 Hmz)) as [Hm1 He1].
  destruct (shr_fexp Float.prec Float.emax mz ez lz) as [mrs1 e1].
  cbn [fst snd] in Hm1, He1.
  pose proof (round_nearest_even_bounds (shr_m mrs1)
                (loc_of_shr_record mrs1)) as Hr.
  set (m1r := round_nearest_even (shr_m mrs1) (loc_of_shr_record mrs1)) in *.
  assert (Hm1r : 0 <= m1r) by lia.
  pose proof (shr_fexp_bounds m1r e1 loc_Exact Hm1r) as [Hm2 He2].
  destruct (shr_fexp Float.prec Float.emax m1r e1 loc_Exact) as [mrs2 e2].
  cbn [fst snd] in Hm2, He2.
  assert (Hd1 : Zdigits2 mz <= 54) by (apply Zdigits2_le; lia).
  assert (Hd2 : Zdigits2 m1r <= 55).
  { apply Zdigits2_le; [|lia]. split; [lia|].
    change (2 ^ 55) with (2 * 2 ^ 54). lia. }
  rewrite fexp_eq in He1, He2.
  assert (He2' : e2 <= -54) by lia.
  destruct (shr_m mrs2) as [|m|m] eqn:Hm; cbn [small_quotient]; trivial.
  replace (e2 <=? Float.emax - Float.prec) with true
    by (symmetry; apply Z.leb_le; unfold Float.emax, Float.prec; lia).
  cbn [small_quotient]. repeat split; lia.
Qed.

Lemma SFdiv_core_binary_bounds (mx : positive) (ex : Z) (m : positive) (e : Z) :
  Zpos (digits2_pos mx) = 53 -> ex <= -36 ->
  Zpos (digits2_pos m) = 53 -> -32 <= e ->
  let '(q, e', l) :=
    SFdiv_core_binary Float.prec Float.emax (Zpos mx) ex (Zpos m) e in
  0 <= q < 2 ^ 54 /\ e' <= -57.
Proof.
  intros Hdx Hex Hdm He.
  pose proof (digits2_pos_upper mx) as Hxu. rewrite Hdx in Hxu.
  pose proof (digits2_pos_lower m) as Hml. rewrite Hdm in Hml.
  change (2 ^ (53 - 1)) with (2 ^ 52) in Hml.
  unfold SFdiv_core_binary. cbn [Zdigits2]. rewrite Hdx, Hdm, fexp_eq.
  set (e' := Z.min (Z.max (53 + ex - (53 + e) - 53) (-1074)) (ex - e)).
  set (sh := ex - e - e').
  assert (Hsh : 0 <= sh <= 53) by (subst sh e'; lia).
  set (m' := match sh with
             | 0 => Zpos mx
             | Zpos _ => Z.shiftl (Zpos mx) sh
             | Zneg _ => 0
             end).
  assert (Hm' : 0 <= m' < 2 ^ 106).
  { subst m'. destruct sh as [|p|p] eqn:Hp.
    - split; [lia|]. change (2 ^ 106) with (2 ^ 53 * 2 ^ 53). nia.
    - rewrite Z.shiftl_mul_pow2 by lia.
      assert (0 < 2 ^ Zpos p <= 2 ^ 53)
        by (split; [apply Z.pow_pos_nonneg; lia
                   |apply Z.pow_le_mono_r; lia]).
      change (2 ^ 106) with (2 ^ 53 * 2 ^ 53). nia.
    - lia. }
  destruct (Z.div_eucl m' (Zpos m)) as [q r] eqn:Hdiv.
  assert (Hq : q = m' / Zpos m) by (unfold Z.div; now rewrite Hdiv).
  split; [|subst e'; lia].
  subst q. split.
  - apply Z.div_pos; lia.
  - apply Z.div_lt_upper_bound; [lia|].
    change (2 ^ 106) with (2 ^ 52 * 2 ^ 54) in Hm'. nia.
Qed.

Lemma of_int_seconds_shape (n : Z) :
  0 <= n < 86400 -> seconds_shape (Float.of_int n) = true.
Proof.
  intros Hn.
  apply (all_from_spec (fun k => seconds_shape (Float.of_int k))
                       (Z.to_nat 86400) 0).
  - vm_compute. reflexivity.
  - rewrite Z2Nat.id; lia.
Qed.

Lemma div_small (x y : float) :
  seconds_shape x = true -> at_least_2p20 y = true ->
  small_quotient (SFdiv Float.prec Float.emax x y).
Proof.
  intros Hx Hy.
  destruct y as [sy|sy| |sy m e]; cbn [at_least_2p20 seconds_shape] in Hy; try discriminate.
  destruct sy; try discriminate.
  apply andb_true_iff in Hy. destruct Hy as [Hdm He].
  apply Z.eqb_eq in Hdm. apply Z.leb_le in He.
  destruct x as [sx|sx| |sx mx ex]; cbn [seconds_shape] in Hx; try discriminate;
    destruct sx; try discriminate.
  - reflexivity.
  - apply andb_true_iff in Hx. destruct Hx as [Hx Hex].
    apply andb_true_iff in Hx. destruct Hx as [Hdx _].
    apply Z.eqb_eq in Hdx. apply Z.leb_le in Hex.
    pose proof (SFdiv_core_binary_bounds mx ex m e Hdx Hex Hdm He) as Hcore.
    unfold SFdiv.
    destruct (SFdiv_core_binary _ _ _ _ _ _) as [[mz ez] lz].
    destruct Hcore as [Hq He']. cbn [xorb].
    now apply binary_round_aux_small.
Qed.

Lemma one_not_below_small (m : positive) (e : Z) :
  e <= -54 -> Float.gt (S754_finite false m e) (Float.of_int 1) = false.
Proof.
  intros He.
  change (Float.of_int 1) with (S754_finite false 4503599627370496 (-52)).
  unfold Float.gt, SFltb, SFcompare.
  replace (-52 ?= e) with Gt by (symmetry; apply Z.compare_gt_iff; lia).
  reflexivity.
Qed.

Lemma sub_small (q y : float) :
  small_quotient q -> seconds_shape y = true ->
  Float.gt (Float.sub q y) (Float.of_int 1) = false.
Proof.
  intros Hq Hy.
  destruct y as [sy|sy| |sy my ey]; cbn [at_least_2p20 seconds_shape] in Hy; try discriminate;
    destruct sy; try discriminate.
  - (* nothing elapsed on the wall clock *)
    destruct q as [s|s| |s m e]; cbn [small_quotient] in Hq; try contradiction.
    + subst s. reflexivity.
    + reflexivity.
    + destruct Hq as [-> [_ He]]. cbn. now apply one_not_below_small.
  - apply andb_true_iff in Hy. destruct Hy as [Hy _].
    apply andb_true_iff in Hy. destruct Hy as [Hdy Hey].
    apply Z.eqb_eq in Hdy. apply Z.leb_le in Hey.
    destruct q as [s|s| |s m e]; cbn [small_quotient] in Hq; try contradiction.
    + subst s. reflexivity.
    + reflexivity.
    + destruct Hq as [-> [Hm He]].
      pose proof (digits2_pos_lower my) as Hml. rewrite Hdy in Hml.
      change (2 ^ (53 - 1)) with (2 ^ 52) in Hml.
      unfold Float.sub, SFsub.
      rewrite Z.min_l by lia.
      unfold shl_align. rewrite Z.sub_diag.
      destruct (e - ey) as [|d|d] eqn:Hd; try lia.
      cbn [fst cond_Zopp]. 
      assert (Hle : Zpos m - Zpos (Pos.iter xO my d) <= 0).
      { rewrite iter_xO.
        assert (2 ^ 2 <= 2 ^ Zpos d) by (apply Z.pow_le_mono_r; lia).
        change (2 ^ 54) with (2 ^ 52 * 2 ^ 2) in Hm. nia. }
      destruct (Zpos m - Zpos (Pos.iter xO my d)) as [|p|p] eqn:Hdiff;
        try lia.
      * reflexivity.
      * apply sign_true_not_gt. cbn [binary_normalize].
        apply binary_round_sign.
Qed.

Lemma large_speed_sleep_secs (firstObsTime programStart : datetime)
      (speedFactor : float) (obs_time now : datetime) (secs : float) :
  at_least_2p20 speedFactor = true ->
  sleep_secs_at firstObsTime programStart speedFactor obs_time now = Ret secs ->
  Float.gt secs (Float.of_int 1) = false.
Proof.
  intros Hsf. unfold sleep_secs_at, Float.truediv.
  replace (Float.is_zero speedFactor) with false
    by (destruct speedFactor as [| | |[] ? ?]; cbn in Hsf;
        try discriminate; reflexivity).
  cbn [result_bind]. intros H. injection H as <-.
  apply sub_small.
  - apply div_small; trivial.
    apply of_int_seconds_shape, sub_seconds_range.
  - apply of_int_seconds_shape, sub_seconds_range.
Qed.

(** C7, as the code has it. For an infinite speed factor the required
    sleep is a number that is zero or below, for every observation time
    and every clock reading. For a finite speed factor of at least 2^20 it
    never exceeds the threshold of 1 second, but it can be above zero: it
    is for the largest finite float, a record one second after the first
    and no wall time elapsed. In both cases the loop of [simulate] never
    flushes (it emits nothing before the input is exhausted) and
    [simulate] never sleeps, however the observation times are spaced. *)
Theorem fast_speedFactor_never_sleeps {J : JsonText} {L : PyLib}
        (topic : str) (firstObsTime programStart : datetime)
        (speedFactor : float) :
  is_infinite speedFactor = true \/ at_least_2p20 speedFactor = true ->
  (forall (obs_time : datetime) (w : world),
      exists secs,
        fst (compute_sleep_secs firstObsTime programStart speedFactor
                                obs_time w) = Ret secs
        /\ Float.gt secs (Float.of_int 1) = false
        /\ (is_infinite speedFactor = true ->
            Float.le secs (Float.of_int 0) = true))
  /\ (at_least_2p20 Example.max_float = true
      /\ exists secs,
          fst (compute_sleep_secs Example.T Example.wall Example.max_float
                                  (Example.T_plus 1)
                                  (mkworld Example.frozen 0 [] (mkfile [] 0) []))
          = Ret secs
          /\ Float.gt secs (Float.of_int 0) = true)
  /\ (forall w : world,
         w_trace (snd (for_line_in_ifp
                         (simulate_body topic firstObsTime programStart
                                        speedFactor)
                         [] w))
         = w_trace w)
  /\ (forall w : world,
         sleeps (w_trace (snd (simulate topic firstObsTime programStart
                                        speedFactor w)))
         = sleeps (w_trace w)).
Proof.
  intros Hfast.
  assert (Hnever : forall obs_time now secs,
             sleep_secs_at firstObsTime programStart speedFactor obs_time now
             = Ret secs ->
             Float.gt secs (Float.of_int 1) = false).
  { intros obs_time now secs Hs. destruct Hfast as [Hinf|Hlarge].
    - destruct (infinite_speed_sleep_secs firstObsTime programStart
                  speedFactor obs_time now Hinf) as [secs' [Hs' Hn]].
      rewrite Hs in Hs'. injection Hs' as <-. now apply nonpos_le_zero.
    - now apply (large_speed_sleep_secs firstObsTime programStart speedFactor
                   obs_time now). }
  split.
  - intros obs_time w. rewrite compute_sleep_secs_eq. cbn [fst].
    assert (Hret : exists secs,
               sleep_secs_at firstObsTime programStart speedFactor obs_time
                             (w_clock w (w_ticks w)) = Ret secs).
    { unfold sleep_secs_at, Float.truediv.
      replace (Float.is_zero speedFactor) with false; [cbn; eauto|].
      destruct Hfast as [H|H];
        destruct speedFactor as [| | |[] ? ?]; cbn in H;
        try discriminate; reflexivity. }
    destruct Hret as [secs Hs]. exists secs.
    split; [exact Hs|]. split; [exact (Hnever _ _ _ Hs)|].
    intros Hinf.
    destruct (infinite_speed_sleep_secs firstObsTime programStart speedFactor
                obs_time (w_clock w (w_ticks w)) Hinf) as [secs' [Hs' Hn]].
    rewrite Hs in Hs'. injection Hs' as <-. now apply nonpos_le_zero.
  - split; [split; [reflexivity|]|split].
    + rewrite compute_sleep_secs_eq. cbn [fst].
      eexists. split; vm_compute; reflexivity.
    + intros w. unfold for_line_in_ifp. now apply for_lines_no_flush.
    + intros w. now apply simulate_no_sleep.
Qed.

Lemma fast_speedFactor_never_sleeps_witness :
  let w := Example.start Example.frozen
             [Example.header; Example.rec0; Example.rec1; Example.rec2] 1 in
  (is_infinite Float.inf = true
   /\ sleeps (w_trace (snd (simulate (L := PyRef.lib) Example.topic Example.T
                                     Example.wall Float.inf w)))
      = [])
  /\ (at_least_2p20 (Float.of_int 1048576) = true
      /\ w_trace (snd (for_line_in_ifp
                         (simulate_body (L := PyRef.lib) Example.topic
                                        Example.T Example.wall
                                        (Float.of_int 1048576))
                         [] w))
         = []
      /\ sleeps (w_trace (snd (simulate (L := PyRef.lib) Example.topic
                                        Example.T Example.wall
                                        (Float.of_int 1048576) w)))
         = []).
Proof.
  cbv zeta. split; (split; [reflexivity|]); [|split].
  - exact (proj2 (proj2 (proj2 (fast_speedFactor_never_sleeps (L := PyRef.lib)
                    Example.topic Example.T Example.wall Float.inf
                    (or_introl eq_refl))))
                 (Example.start Example.frozen
                    [Example.header; Example.rec0; Example.rec1; Example.rec2]
                    1)).
  - exact (proj1 (proj2 (proj2 (fast_speedFactor_never_sleeps (L := PyRef.lib)
                    Example.topic Example.T Example.wall
                    (Float.of_int 1048576) (or_intror eq_refl))))
                 (Example.start Example.frozen
                    [Example.header; Example.rec0; Example.rec1; Example.rec2]
                    1)).
  - exact (proj2 (proj2 (proj2 (fast_speedFactor_never_sleeps (L := PyRef.lib)
                    Example.topic Example.T Example.wall
                    (Float.of_int 1048576) (or_intror eq_refl))))
                 (Example.start Example.frozen
                    [Example.header; Example.rec0; Example.rec1; Example.rec2]
                    1)).
Defined.

(** * Further properties of the script *)

(** ** [convert_csv_to_json] *)

Section Convert.

Context {J : JsonText} {L : PyLib}.

Lemma fields_eq :
  fields = ["timestamp"; "latitude"; "longitude"; "freeway_id";
            "freeway_dir"; "lane"; "speed"]%string.
Proof. vm_compute. reflexivity. Qed.

Ltac convert_cases :=
  repeat match goal with
         | |- context [float_of_str ?f] =>
             destruct (float_of_str f) eqn:?; cbn
         | |- context [int_of_str ?f] =>
             destruct (int_of_str f) eqn:?; cbn
         end.

(** How [convert_csv_to_json] ends, by the number of fields of the row. *)
Lemma convert_row (s : str) :
  let conv :=
    let line_dict := dict_of_zip fields (split "," s) in
    result_bind (convert_field py_float "latitude" line_dict) (fun line_dict =>
    result_bind (convert_field py_float "longitude" line_dict) (fun line_dict =>
    result_bind (convert_field py_int "freeway_id" line_dict) (fun line_dict =>
    result_bind (convert_field py_int "lane" line_dict) (fun line_dict =>
    result_bind (convert_field py_float "speed" line_dict) (fun line_dict =>
    Ret (json_dumps line_dict)))))) in
  match split "," s with
  | f0 :: f1 :: f2 :: f3 :: f4 :: f5 :: f6 :: _ =>
      match float_of_str f1, float_of_str f2, int_of_str f3,
            int_of_str f5, float_of_str f6 with
      | Some lat, Some lon, Some fid, Some lane, Some speed =>
          conv = Ret (json_dumps (record_dict f0 lat lon fid f4 lane speed))
      | _, _, _, _, _ => conv = Raise ValueError
      end
  | [] => conv = Raise KeyError
  | [_] => conv = Raise KeyError
  | _ => conv = Raise KeyError \/ conv = Raise ValueError
  end.
Proof.
  cbv zeta. rewrite fields_eq.
  destruct (split "," s) as [|f0 [|f1 [|f2 [|f3 [|f4 [|f5 [|f6 extra]]]]]]];
    cbn.
  1-7: convert_cases;
    first [reflexivity | left; reflexivity | right; reflexivity].
  destruct (float_of_str f1); cbn; [|now convert_cases].
  destruct (float_of_str f2); cbn; [|now convert_cases].
  destruct (int_of_str f3); cbn; [|now convert_cases].
  destruct (int_of_str f5); cbn; [|now convert_cases].
  destruct (float_of_str f6); reflexivity.
Qed.

Lemma convert_outcome (line : bytes) (s : str) :
  decode_utf8 line = Some s ->
  match split "," s with
  | f0 :: f1 :: f2 :: f3 :: f4 :: f5 :: f6 :: _ =>
      match float_of_str f1, float_of_str f2, int_of_str f3,
            int_of_str f5, float_of_str f6 with
      | Some lat, Some lon, Some fid, Some lane, Some speed =>
          convert_csv_to_json line
          = Ret (json_dumps (record_dict f0 lat lon fid f4 lane speed))
      | _, _, _, _, _ => convert_csv_to_json line = Raise ValueError
      end
  | [] => convert_csv_to_json line = Raise KeyError
  | [_] => convert_csv_to_json line = Raise KeyError
  | _ => convert_csv_to_json line = Raise KeyError
         \/ convert_csv_to_json line = Raise ValueError
  end.
Proof.
  intros Hdec. unfold convert_csv_to_json. rewrite Hdec.
  exact (convert_row s).
Qed.

Lemma convert_undecodable (line : bytes) :
  decode_utf8 line = None ->
  convert_csv_to_json line = Raise UnicodeDecodeError.
Proof. intros H. unfold convert_csv_to_json. now rewrite H. Qed.

Lemma convert_ret_inv (line : bytes) (j : json_text) :
  convert_csv_to_json line = Ret j ->
  exists s f0 f1 f2 f3 f4 f5 f6 extra lat lon fid lane speed,
    decode_utf8 line = Some s
    /\ split "," s = f0 :: f1 :: f2 :: f3 :: f4 :: f5 :: f6 :: extra
    /\ float_of_str f1 = Some lat
    /\ float_of_str f2 = Some lon
    /\ int_of_str f3 = Some fid
    /\ int_of_str f5 = Some lane
    /\ float_of_str f6 = Some speed
    /\ j = json_dumps (record_dict f0 lat lon fid f4 lane speed).
Proof.
  intros Hc.
  destruct (decode_utf8 line) as [s|] eqn:Hdec;
    [|rewrite (convert_undecodable line Hdec) in Hc; discriminate].
  pose proof (convert_outcome line s Hdec) as H.
  destruct (split "," s) as [|f0 [|f1 [|f2 [|f3 [|f4 [|f5 [|f6 extra]]]]]]]
    eqn:Hs;
    try (destruct H as [H|H]); try (rewrite H in Hc; discriminate).
  destruct (float_of_str f1) as [lat|] eqn:H1;
    [|rewrite H in Hc; discriminate].
  destruct (float_of_str f2) as [lon|] eqn:H2;
    [|rewrite H in Hc; discriminate].
  destruct (int_of_str f3) as [fid|] eqn:H3;
    [|rewrite H in Hc; discriminate].
  destruct (int_of_str f5) as [lane|] eqn:H5;
    [|rewrite H in Hc; discriminate].
  destruct (float_of_str f6) as [speed|] eqn:H6;
    [|rewrite H in Hc; discriminate].
  rewrite H in Hc. injection Hc as <-.
  exists s, f0, f1, f2, f3, f4, f5, f6, extra, lat, lon, fid, lane, speed.
  repeat split; trivial.
Qed.

(** X1. [convert_csv_to_json] returns exactly for the rows that decode,
    have at least seven comma-separated fields and whose fields 1, 2 and 6
    are accepted by [float] and 3 and 5 by [int]; the result is then the
    JSON text of the object with the seven column names in their order,
    the timestamp and the freeway direction kept as text. *)
Theorem convert_csv_to_json_ok (line : bytes) (j : json_text) :
  convert_csv_to_json line = Ret j <->
  exists s f0 f1 f2 f3 f4 f5 f6 extra lat lon fid lane speed,
    decode_utf8 line = Some s
    /\ split "," s = f0 :: f1 :: f2 :: f3 :: f4 :: f5 :: f6 :: extra
    /\ float_of_str f1 = Some lat
    /\ float_of_str f2 = Some lon
    /\ int_of_str f3 = Some fid
    /\ int_of_str f5 = Some lane
    /\ float_of_str f6 = Some speed
    /\ j = json_dumps (record_dict f0 lat lon fid f4 lane speed).
Proof.
  split.
  - apply convert_ret_inv.
  - intros (s & f0 & f1 & f2 & f3 & f4 & f5 & f6 & extra & lat & lon & fid
            & lane & speed & Hdec & Hs & H1 & H2 & H3 & H5 & H6 & ->).
    pose proof (convert_outcome line s Hdec) as H.
    now rewrite Hs, H1, H2, H3, H5, H6 in H.
Qed.

(** X2. The failures of [convert_csv_to_json]: [UnicodeDecodeError] when
    the row is not UTF-8, [KeyError] only for a row with fewer than seven
    fields, [ValueError] only for a row that has at least a second field;
    no other exception. *)
Theorem convert_csv_to_json_errors (line : bytes) (e : exn) :
  convert_csv_to_json line = Raise e ->
  (e = UnicodeDecodeError /\ decode_utf8 line = None)
  \/ (exists s,
         decode_utf8 line = Some s
         /\ ((e = KeyError /\ (List.length (split "," s) < 7)%nat)
             \/ (e = ValueError /\ (2 <= List.length (split "," s))%nat))).
Proof.
  intros Hc.
  destruct (decode_utf8 line) as [s|] eqn:Hdec.
  - right. exists s. split; trivial.
    pose proof (convert_outcome line s Hdec) as H.
    destruct (split "," s) as [|f0 [|f1 [|f2 [|f3 [|f4 [|f5 [|f6 extra]]]]]]];
      cbn [List.length];
      try (destruct H as [H|H]);
      try (rewrite H in Hc; injection Hc as <-;
           first [left; split; [reflexivity|lia]
                 |right; split; [reflexivity|lia]]).
    destruct (float_of_str f1), (float_of_str f2), (int_of_str f3),
      (int_of_str f5), (float_of_str f6);
      rewrite H in Hc; try discriminate; injection Hc as <-;
      right; (split; [reflexivity|lia]).
  - left. rewrite (convert_undecodable line Hdec) in Hc.
    injection Hc as <-. auto.
Qed.

Lemma dict_of_zip_firstn (keys values : list str) :
  dict_of_zip keys (firstn (List.length keys) values) = dict_of_zip keys values.
Proof.
  unfold dict_of_zip. f_equal.
  revert values. induction keys as [|k keys IH]; intros [|v values]; cbn;
    trivial.
  now rewrite IH.
Qed.

(** X3. Fields after the seventh are ignored: two rows that decode and
    agree on their first seven fields convert alike. *)
Theorem convert_csv_to_json_ignores_extra_fields
        (line1 line2 : bytes) (s1 s2 : str) :
  decode_utf8 line1 = Some s1 ->
  decode_utf8 line2 = Some s2 ->
  firstn 7 (split "," s1) = firstn 7 (split "," s2) ->
  convert_csv_to_json line1 = convert_csv_to_json line2.
Proof.
  intros H1 H2 Hf. unfold convert_csv_to_json. rewrite H1, H2.
  cbn [of_option result_bind]. cbv zeta.
  rewrite <- (dict_of_zip_firstn fields (split "," s1)).
  rewrite <- (dict_of_zip_firstn fields (split "," s2)).
  rewrite fields_eq. cbn [List.length]. now rewrite Hf.
Qed.

(** X4. The timestamp of an encoded record is the text that paced it: when
    a row converts, the value under ["timestamp"] in the encoded object is
    the first field of the row, the very text [get_timestamp] hands to
    [strptime]. *)
Theorem converted_timestamp_is_paced_text (line : bytes) (j : json_text) :
  convert_csv_to_json line = Ret j ->
  exists d f0,
    j = json_dumps d
    /\ dict_getitem d "timestamp" = Ret (VStr f0)
    /\ get_timestamp line = of_option ValueError (strptime f0 TIME_FORMAT).
Proof.
  intros Hc.
  destruct (convert_ret_inv line j Hc)
    as (s & f0 & f1 & f2 & f3 & f4 & f5 & f6 & extra & lat & lon & fid
        & lane & speed & Hdec & Hs & _ & _ & _ & _ & _ & ->).
  exists (record_dict f0 lat lon fid f4 lane speed), f0.
  split; [reflexivity|]. split; [reflexivity|].
  unfold get_timestamp. rewrite Hdec. cbn [of_option result_bind].
  now rewrite Hs.
Qed.

End Convert.

Lemma convert_csv_to_json_errors_witness :
  convert_csv_to_json (L := PyRef.lib) Rows.timestamp_only = Raise KeyError
  /\ ((KeyError = UnicodeDecodeError
       /\ decode_utf8 (PyLib := PyRef.lib) Rows.timestamp_only = None)
      \/ (exists s,
             decode_utf8 (PyLib := PyRef.lib) Rows.timestamp_only = Some s
             /\ ((KeyError = KeyError /\ (List.length (split "," s) < 7)%nat)
                 \/ (KeyError = ValueError
                     /\ (2 <= List.length (split "," s))%nat)))).
Proof.
  assert (H : convert_csv_to_json (L := PyRef.lib) Rows.timestamp_only
              = Raise KeyError) by (vm_compute; reflexivity).
  split; [exact H|].
  exact (convert_csv_to_json_errors (L := PyRef.lib) Rows.timestamp_only
           KeyError H).
Defined.

Lemma convert_csv_to_json_ignores_extra_fields_witness :
  decode_utf8 (PyLib := PyRef.lib) Rows.with_extra = Some Rows.with_extra
  /\ decode_utf8 (PyLib := PyRef.lib) Rows.without_extra
     = Some Rows.without_extra
  /\ firstn 7 (split "," Rows.with_extra)
     = firstn 7 (split "," Rows.without_extra)
  /\ convert_csv_to_json (L := PyRef.lib) Rows.with_extra
     = convert_csv_to_json (L := PyRef.lib) Rows.without_extra.
Proof.
  assert (H1 : decode_utf8 (PyLib := PyRef.lib) Rows.with_extra
               = Some Rows.with_extra) by (vm_compute; reflexivity).
  assert (H2 : decode_utf8 (PyLib := PyRef.lib) Rows.without_extra
               = Some Rows.without_extra) by (vm_compute; reflexivity).
  assert (H3 : firstn 7 (split "," Rows.with_extra)
               = firstn 7 (split "," Rows.without_extra))
    by (vm_compute; reflexivity).
  split; [exact H1|]. split; [exact H2|]. split; [exact H3|].
  exact (convert_csv_to_json_ignores_extra_fields (L := PyRef.lib)
           Rows.with_extra Rows.without_extra
           Rows.with_extra Rows.without_extra H1 H2 H3).
Defined.

Lemma converted_timestamp_is_paced_text_witness :
  convert_csv_to_json (L := PyRef.lib) Example.rec0 = Ret Example.json0
  /\ exists d f0,
      Example.json0 = json_dumps (PyLib := PyRef.lib) d
      /\ dict_getitem d "timestamp" = Ret (VStr f0)
      /\ get_timestamp (L := PyRef.lib) Example.rec0
         = of_option ValueError (strptime (PyLib := PyRef.lib) f0 TIME_FORMAT).
Proof.
  assert (H : convert_csv_to_json (L := PyRef.lib) Example.rec0
              = Ret Example.json0) by (vm_compute; reflexivity).
  split; [exact H|].
  exact (converted_timestamp_is_paced_text (L := PyRef.lib)
           Example.rec0 Example.json0 H).
Defined.

(** ** What every run of [simulate] keeps *)

Section LoopSteps.

Context {J : JsonText} {L : PyLib}.

Lemma loop_step_refl (w : world) : loop_step w w.
Proof.
  repeat split. exists []. now rewrite app_nil_r.
Qed.

Lemma loop_step_trans (w1 w2 w3 : world) :
  loop_step w1 w2 -> loop_step w2 w3 -> loop_step w1 w3.
Proof.
  intros (Hc1 & Ht1 & Hf1 & es1 & He1 & Ha1) (Hc2 & Ht2 & Hf2 & es2 & He2 & Ha2).
  repeat split; try congruence.
  exists (es1 ++ es2). split.
  - now rewrite He2, He1, app_assoc.
  - now rewrite forallb_app, Ha1, Ha2.
Qed.

Lemma loop_step_set_fpos (p : nat) (w : world) : loop_step w (set_fpos p w).
Proof.
  repeat split. exists []. cbn. now rewrite app_nil_r.
Qed.

Lemma loop_step_tick (w : world) : loop_step w (tick w).
Proof.
  repeat split. exists []. cbn. now rewrite app_nil_r.
Qed.

Lemma loop_step_add_traces (es : list effect) (w : world) :
  forallb loop_effect es = true -> loop_step w (add_traces es w).
Proof. intros H. repeat split. now exists es. Qed.

Lemma flush_trace_loop_effects (topic : str) (events : list json_text)
      (ts : pyval) :
  forallb loop_effect (flush_trace topic events ts) = true.
Proof.
  destruct events as [|e0 rest]; trivial.
  unfold flush_trace. cbn [forallb loop_effect andb].
  generalize (e0 :: rest). intros l. induction l as [|e l IH]; trivial.
Qed.

Lemma sleep_trace_loop_effects (secs : float) :
  forallb loop_effect (sleep_trace secs) = true.
Proof.
  unfold sleep_trace.
  destruct (Float.gt secs (Float.of_int 0)) eqn:H; trivial.
  cbn [forallb loop_effect andb]. now rewrite H.
Qed.

Lemma publish_loop_step (topic : str) (events : list json_text) (w : world) :
  loop_step w (snd (publish topic events w)).
Proof.
  destruct events as [|e0 rest]; [apply loop_step_refl|].
  rewrite publish_cons.
  destruct (json_loads e0) as [d|]; cbn [snd].
  - destruct (dict_getitem d "timestamp") as [ts|e]; cbn [snd].
    + apply loop_step_add_traces, flush_trace_loop_effects.
    + rewrite add_trace_traces. now apply loop_step_add_traces.
  - rewrite add_trace_traces. now apply loop_step_add_traces.
Qed.

Section Run.

Variable topic : str.
Variables firstObsTime programStart : datetime.
Variable speedFactor : float.

Lemma simulate_body_loop_step (line : bytes) (acc : list json_text)
      (w : world) :
  loop_step w (snd (simulate_body topic firstObsTime programStart speedFactor
                                  line acc w)).
Proof.
  rewrite simulate_body_eq.
  destruct (get_timestamp line) as [obs_time|e]; [|apply loop_step_refl].
  destruct (sleep_secs_at _ _ _ _ _) as [secs|e]; [|apply loop_step_tick].
  destruct (Float.gt secs (Float.of_int 1)).
  - pose proof (publish_loop_step topic acc (tick w)) as Hp.
    apply (loop_step_trans w (tick w)); [apply loop_step_tick|].
    destruct (publish topic acc (tick w)) as [[[]|e] w1]; cbn [snd] in *;
      trivial.
    apply (loop_step_trans _ w1); trivial.
    destruct (sleep_secs_at _ _ _ _ _) as [secs2|e]; [|apply loop_step_tick].
    apply (loop_step_trans _ (tick w1)); [apply loop_step_tick|].
    destruct (sleep_refusal secs2) as [e|]; cbn [snd];
      [now apply loop_step_add_traces|].
    destruct (convert_csv_to_json line); cbn [snd];
      apply loop_step_add_traces, sleep_trace_loop_effects.
  - destruct (convert_csv_to_json line); apply loop_step_tick.
Qed.

Lemma for_lines_loop_step (lines : list bytes) :
  forall (acc : list json_text) (w : world),
    loop_step w (snd (for_lines
                        (simulate_body topic firstObsTime programStart
                                       speedFactor)
                        lines acc w)).
Proof.
  induction lines as [|line rest IH]; intros acc w; [apply loop_step_refl|].
  rewrite for_lines_cons.
  pose proof (simulate_body_loop_step line acc
                (set_fpos (S (fpos (w_ifp w))) w)) as Hb.
  apply (loop_step_trans w (set_fpos (S (fpos (w_ifp w))) w));
    [apply loop_step_set_fpos|].
  destruct (simulate_body _ _ _ _ line acc _) as [[acc1|e] w1];
    cbn [snd] in *; trivial.
  apply (loop_step_trans _ w1); trivial.
Qed.

Lemma simulate_loop_step (w : world) :
  loop_step w (snd (simulate topic firstObsTime programStart speedFactor w)).
Proof.
  unfold simulate, bind, for_line_in_ifp.
  pose proof (for_lines_loop_step (remaining (w_ifp w)) [] w) as Hl.
  destruct (for_lines _ _ _ w) as [[acc|e] w1]; cbn [snd] in *; trivial.
  apply (loop_step_trans _ w1); trivial. apply publish_loop_step.
Qed.

End Run.

Lemma sleeps_loop_effects (es : list effect) :
  forallb loop_effect es = true ->
  Forall (fun secs => Float.gt secs (Float.of_int 0) = true) (sleeps es).
Proof.
  induction es as [|e es IH]; cbn [forallb sleeps]; [constructor|].
  intros H. apply andb_true_iff in H. destruct H as [He Hes].
  destruct e; cbn [sleeps]; auto.
Qed.

Lemma created_loop_effects (es : list effect) :
  forallb loop_effect es = true -> created es = [].
Proof.
  induction es as [|e es IH]; cbn [forallb created]; trivial.
  intros H. apply andb_true_iff in H. destruct H as [He Hes].
  destruct e; cbn [created]; auto. discriminate.
Qed.

Lemma created_app (a b : list effect) :
  created (a ++ b) = created a ++ created b.
Proof.
  induction a as [|e a IH]; cbn; trivial.
  destruct e; cbn; now rewrite IH.
Qed.

End LoopSteps.

(** X5. [simulate] never calls [time.sleep] with a duration that is not
    above zero (nor with NaN): whatever the clock, the input and the
    outcome of the run, every duration slept is [> 0]. *)
Theorem simulate_sleeps_are_positive {J : JsonText} {L : PyLib}
        (topic : str) (firstObsTime programStart : datetime)
        (speedFactor : float) (w : world) :
  exists new,
    sleeps (w_trace (snd (simulate topic firstObsTime programStart
                                   speedFactor w)))
    = sleeps (w_trace w) ++ new
    /\ Forall (fun secs => Float.gt secs (Float.of_int 0) = true) new.
Proof.
  destruct (simulate_loop_step topic firstObsTime programStart speedFactor w)
    as (_ & _ & _ & es & He & Ha).
  exists (sleeps es). split.
  - now rewrite He, sleeps_app.
  - now apply sleeps_loop_effects.
Qed.

(** X6. [simulate] leaves the rest of the world alone, whatever the
    outcome: it creates no topic, and the known topics and the content of
    the input are unchanged. When it completes, starting inside the
    input, the whole input has been consumed. *)
Theorem simulate_leaves_world_alone {J : JsonText} {L : PyLib}
        (topic : str) (firstObsTime programStart : datetime)
        (speedFactor : float) (w : world) :
  let out := simulate topic firstObsTime programStart speedFactor w in
  w_topics (snd out) = w_topics w
  /\ created (w_trace (snd out)) = created (w_trace w)
  /\ flines (w_ifp (snd out)) = flines (w_ifp w)
  /\ w_clock (snd out) = w_clock w
  /\ (fst out = Ret tt ->
      (fpos (w_ifp w) <= List.length (flines (w_ifp w)))%nat ->
      fpos (w_ifp (snd out)) = List.length (flines (w_ifp w))).
Proof.
  cbv zeta.
  destruct (simulate_loop_step topic firstObsTime programStart speedFactor w)
    as (Hc & Ht & Hf & es & He & Ha).
  split; [exact Ht|]. split.
  { rewrite He, created_app, (created_loop_effects es Ha).
    now rewrite app_nil_r. }
  split; [exact Hf|]. split; [exact Hc|].
  unfold simulate, bind, for_line_in_ifp.
  pose proof (for_lines_position topic firstObsTime programStart speedFactor
                (remaining (w_ifp w)) [] w) as Hp.
  cbv zeta in Hp.
  destruct (for_lines _ _ _ w) as [[acc|e] w1]; cbn [fst snd] in *;
    [|discriminate].
  intros _ Hpos. rewrite publish_ifp.
  destruct Hp as [_ [_ [_ Heq]]]. rewrite (Heq acc eq_refl).
  unfold remaining. rewrite length_skipn. lia.
Qed.

(** ** What has been published when a run stops *)

Section Prefix.

Context {J : JsonText} {L : PyLib}.

Variable topic : str.
Variables firstObsTime programStart : datetime.
Variable speedFactor : float.

Lemma publish_raise_published (events : list json_text) (w w1 : world)
      (e : exn) :
  publish topic events w = (Raise e, w1) ->
  published (w_trace w1) = published (w_trace w).
Proof.
  destruct events as [|e0 rest].
  - rewrite publish_nil. now intros [= _ <-].
  - rewrite publish_cons.
    destruct (json_loads e0) as [d|].
    + destruct (dict_getitem d "timestamp") as [ts|e']; [discriminate|].
      intros [= _ <-]. cbn. rewrite published_app. cbn. now rewrite app_nil_r.
    + intros [= _ <-]. cbn. rewrite published_app. cbn. now rewrite app_nil_r.
Qed.

Lemma publish_ret_published (events : list json_text) (w w1 : world) :
  publish topic events w = (Ret tt, w1) ->
  published (w_trace w1) = published (w_trace w) ++ map (pair topic) events.
Proof.
  intros H. apply publish_ok in H. destruct H as [ts [_ ->]].
  cbn [add_traces w_trace]. now rewrite published_app, published_flush_trace.
Qed.

Lemma skipn_app_2 {A : Type} (l1 l2 : list A) (k : nat) :
  skipn (List.length l1 + k) (l1 ++ l2) = skipn k l2.
Proof. induction l1 as [|a l1 IH]; cbn; trivial. Qed.

(** The loop publishes the accumulated and encoded records in order: at
    any stop, an initial segment; when it returns, the rest is what it has
    accumulated. *)
Lemma for_lines_published (lines : list bytes) :
  forall (acc : list json_text) (w : world),
    let out := for_lines
                 (simulate_body topic firstObsTime programStart speedFactor)
                 lines acc w in
    exists n js k,
      map_result convert_csv_to_json (firstn n lines) = Ret js
      /\ published (w_trace (snd out))
         = published (w_trace w) ++ map (pair topic) (firstn k (acc ++ js))
      /\ (forall acc',
             fst out = Ret acc' ->
             n = List.length lines /\ acc' = skipn k (acc ++ js)).
Proof.
  induction lines as [|line rest IH]; intros acc w; cbv zeta.
  { exists 0%nat, [], 0%nat. cbn. rewrite !app_nil_r.
    repeat split; trivial. congruence. }
  assert (Hstop : forall (w' : world) (e : exn) (k : nat),
             published (w_trace w')
             = published (w_trace w) ++ map (pair topic) (firstn k acc) ->
             exists n js k0,
               map_result convert_csv_to_json (firstn n (line :: rest)) = Ret js
               /\ published (w_trace (snd (@Raise (list json_text) e, w')))
                  = published (w_trace w)
                    ++ map (pair topic) (firstn k0 (acc ++ js))
               /\ (forall acc',
                      fst (@Raise (list json_text) e, w') = Ret acc' ->
                      n = List.length (line :: rest)
                      /\ acc' = skipn k0 (acc ++ js))).
  { intros w' e k Hk. exists 0%nat, [], k. cbn [firstn map_result fst snd].
    rewrite app_nil_r. repeat split; trivial; discriminate. }
  rewrite for_lines_cons, simulate_body_eq.
  set (w0 := set_fpos (S (fpos (w_ifp w))) w).
  destruct (get_timestamp line) as [obs_time|e];
    [|apply (Hstop _ _ 0%nat); cbn; now rewrite app_nil_r].
  destruct (sleep_secs_at _ _ _ _ _) as [secs|e];
    [|apply (Hstop _ _ 0%nat); cbn; now rewrite app_nil_r].
  destruct (Float.gt secs (Float.of_int 1)).
  - destruct (publish topic acc (tick w0)) as [[[]|e] w1] eqn:Hpub.
    + apply publish_ret_published in Hpub.
      cbn [tick set_ticks w_trace] in Hpub. subst w0.
      cbn [set_fpos w_trace] in Hpub.
      destruct (sleep_secs_at _ _ _ _ _) as [secs2|e].
      2:{ apply (Hstop _ _ (List.length acc)). cbn [tick set_ticks w_trace].
          now rewrite firstn_all. }
      destruct (sleep_refusal secs2) as [e|].
      { apply (Hstop _ _ (List.length acc)).
        cbn [add_traces tick set_ticks w_trace].
        rewrite published_app, firstn_all. cbn [published].
        now rewrite app_nil_r. }
      destruct (convert_csv_to_json line) as [j|e] eqn:Hconv.
      2:{ apply (Hstop _ _ (List.length acc)).
          cbn [add_traces tick set_ticks w_trace].
          now rewrite published_app, published_sleep_trace, app_nil_r,
            firstn_all. }
      cbv zeta.
      specialize (IH [j] (add_traces (sleep_trace secs2) (tick w1))).
      cbv zeta in IH. destruct IH as (n & js & k & Hjs & Hp & Hret).
      exists (S n), (j :: js), (List.length acc + k)%nat.
      cbn [firstn map_result]. rewrite Hconv, Hjs. cbn [result_bind].
      split; [reflexivity|]. split.
      * rewrite Hp. cbn [add_traces tick set_ticks w_trace].
        rewrite published_app, published_sleep_trace, app_nil_r, Hpub.
        rewrite firstn_app_2, map_app, <- app_assoc. reflexivity.
      * intros acc' Hacc. destruct (Hret acc' Hacc) as [-> ->].
        split; [reflexivity|]. now rewrite skipn_app_2.
    + apply publish_raise_published in Hpub.
      apply (Hstop _ _ 0%nat). rewrite Hpub. cbn. now rewrite app_nil_r.
  - destruct (convert_csv_to_json line) as [j|e] eqn:Hconv;
      [|apply (Hstop _ _ 0%nat); cbn; now rewrite app_nil_r].
    specialize (IH (acc ++ [j]) (tick w0)).
    cbv zeta in IH. destruct IH as (n & js & k & Hjs & Hp & Hret).
    exists (S n), (j :: js), k.
    cbn [firstn map_result]. rewrite Hconv, Hjs. cbn [result_bind].
    split; [reflexivity|]. split.
    + rewrite Hp. cbn. now rewrite <- app_assoc.
    + intros acc' Hacc. destruct (Hret acc' Hacc) as [-> ->].
      split; [reflexivity|]. now rewrite <- app_assoc.
Qed.

(** X7. However a run of [simulate] ends, what it has published so far is
    an initial segment of the encoded rows, in input order and on the
    given topic: a failure can cut the output short, it never lets a
    record overtake, repeat or replace another. *)
Theorem simulate_publishes_a_prefix (w : world) :
  let out := simulate topic firstObsTime programStart speedFactor w in
  exists n js k,
    map_result convert_csv_to_json (firstn n (remaining (w_ifp w))) = Ret js
    /\ published (w_trace (snd out))
       = published (w_trace w) ++ map (pair topic) (firstn k js)
    /\ (fst out = Ret tt ->
        n = List.length (remaining (w_ifp w)) /\ firstn k js = js).
Proof.
  cbv zeta. unfold simulate, bind, for_line_in_ifp.
  pose proof (for_lines_published (remaining (w_ifp w)) [] w) as H.
  cbv zeta in H. destruct H as (n & js & k & Hjs & Hp & Hret).
  cbn [app] in Hp, Hret.
  destruct (for_lines _ _ _ w) as [[acc|e] w1]; cbn [fst snd] in *.
  - destruct (Hret acc eq_refl) as [Hn Hacc].
    destruct (publish topic acc w1) as [[[]|e] w2] eqn:Hpub; cbn [fst snd].
    + apply publish_ret_published in Hpub.
      exists n, js, (List.length js). split; [exact Hjs|]. split.
      * rewrite Hpub, Hp, Hacc, <- app_assoc, <- map_app, firstn_skipn.
        now rewrite firstn_all.
      * intros _. split; [exact Hn|apply firstn_all].
    + apply publish_raise_published in Hpub.
      exists n, js, k. split; [exact Hjs|]. split; [congruence|discriminate].
  - exists n, js, k. split; [exact Hjs|]. split; [exact Hp|discriminate].
Qed.

End Prefix.

(** ** The shape of a completed run *)

Section Shape.

Context {J : JsonText} {L : PyLib}.

Variable topic : str.
Variables firstObsTime programStart : datetime.
Variable speedFactor : float.

Lemma for_lines_shape (lines : list bytes) :
  forall (acc acc' : list json_text) (w w' : world),
    for_lines (simulate_body topic firstObsTime programStart speedFactor)
              lines acc w = (Ret acc', w') ->
    exists segs js,
      map_result convert_csv_to_json lines = Ret js
      /\ w_trace w' = w_trace w ++ List.concat (map (segment_trace topic) segs)
      /\ List.concat (map (fun seg => fst (fst seg)) segs) ++ acc' = acc ++ js
      /\ Forall (fun seg => fst (fst seg) <> []) segs
      /\ w_ticks w'
         = (w_ticks w + List.length lines + List.length segs)%nat.
Proof.
  induction lines as [|line rest IH]; intros acc acc' w w' H.
  - cbn in H. injection H as <- <-. exists [], []. cbn.
    rewrite !app_nil_r. repeat split; trivial. lia.
  - rewrite for_lines_cons, simulate_body_eq in H. cbn [map_result].
    destruct (get_timestamp line) as [obs_time|e]; try discriminate.
    destruct (sleep_secs_at _ _ _ _ _) as [secs|e]; try discriminate.
    destruct (Float.gt secs (Float.of_int 1)).
    + destruct (publish topic acc _) as [[[]|e] w1] eqn:Hpub; try discriminate.
      destruct (sleep_secs_at _ _ _ _ _) as [secs2|e]; try discriminate.
      destruct (sleep_refusal secs2) as [e|]; try discriminate.
      destruct (convert_csv_to_json line) as [j|e]; try discriminate.
      apply publish_ok in Hpub. destruct Hpub as [ts [Hne ->]].
      apply IH in H. destruct H as (segs & js & Hjs & Htr & Hb & Hall & Htk).
      exists ((acc, ts, secs2) :: segs), (j :: js). rewrite Hjs.
      split; [reflexivity|]. split; [|split; [|split]].
      * rewrite Htr. cbn [add_traces tick set_ticks set_fpos w_trace map List.concat].
        unfold segment_trace at 2. cbn [fst snd].
        now rewrite <- !app_assoc.
      * cbn [map List.concat fst snd]. rewrite <- app_assoc, Hb. reflexivity.
      * constructor; trivial.
      * rewrite Htk. cbn. lia.
    + destruct (convert_csv_to_json line) as [j|e]; try discriminate.
      apply IH in H. destruct H as (segs & js & Hjs & Htr & Hb & Hall & Htk).
      exists segs, (j :: js). rewrite Hjs.
      split; [reflexivity|]. split; [|split; [|split]]; trivial.
      * rewrite Hb, <- app_assoc. reflexivity.
      * rewrite Htk. cbn. lia.
Qed.

(** X8. The shape of a completed run. What [simulate] has emitted is a
    sequence of flushes inside the loop followed by the final flush; each
    flush is the print of the batch's first record, one log line with the
    size of the batch, then the messages of the batch; a sleep (its log
    line, then the sleep) occurs only directly after a flush inside the
    loop. The batches are not empty and, joined in order, are the encoded
    rows. The clock has been read once per row and once more per flush
    inside the loop. *)
Theorem simulate_trace_shape (w w' : world) :
  simulate topic firstObsTime programStart speedFactor w = (Ret tt, w') ->
  exists segs last ts js,
    map_result convert_csv_to_json (remaining (w_ifp w)) = Ret js
    /\ w_trace w'
       = w_trace w ++ List.concat (map (segment_trace topic) segs)
         ++ flush_trace topic last ts
    /\ List.concat (map (fun seg => fst (fst seg)) segs) ++ last = js
    /\ Forall (fun seg => fst (fst seg) <> []) segs
    /\ last <> []
    /\ w_ticks w'
       = (w_ticks w + List.length (remaining (w_ifp w))
          + List.length segs)%nat.
Proof.
  unfold simulate, bind, for_line_in_ifp. intros H.
  destruct (for_lines _ _ _ w) as [[acc|e] w1] eqn:Hloop; try discriminate.
  apply for_lines_shape in Hloop.
  destruct Hloop as (segs & js & Hjs & Htr & Hb & Hall & Htk).
  apply publish_ok in H. destruct H as [ts [Hne ->]].
  exists segs, acc, ts, js. cbn [add_traces w_trace w_ticks].
  repeat split; trivial.
  rewrite Htr, <- app_assoc. reflexivity.
Qed.

End Shape.

Lemma simulate_trace_shape_witness :
  let w := Example.start Example.frozen
             [Example.header; Example.rec0; Example.rec1; Example.rec2] 1 in
  let w' := snd (simulate (L := PyRef.lib) Example.topic Example.T Example.wall
                          Example.one w) in
  simulate (L := PyRef.lib) Example.topic Example.T Example.wall Example.one w
  = (Ret tt, w')
  /\ exists segs last ts js,
      map_result (convert_csv_to_json (L := PyRef.lib)) (remaining (w_ifp w))
      = Ret js
      /\ w_trace w'
         = w_trace w ++ List.concat (map (segment_trace Example.topic) segs)
           ++ flush_trace Example.topic last ts
      /\ List.concat (map (fun seg => fst (fst seg)) segs) ++ last = js
      /\ Forall (fun seg => fst (fst seg) <> []) segs
      /\ last <> []
      /\ w_ticks w'
         = (w_ticks w + List.length (remaining (w_ifp w))
            + List.length segs)%nat.
Proof.
  cbv zeta. split.
  - vm_compute. reflexivity.
  - apply (simulate_trace_shape (L := PyRef.lib)
             Example.topic Example.T Example.wall Example.one).
    vm_compute. reflexivity.
Defined.

(** ** Runs that complete *)

Lemma map_result_cons_inv {A B : Type} (f : A -> result B) (x : A)
      (xs : list A) (ys : list B) :
  map_result f (x :: xs) = Ret ys ->
  exists y ys', f x = Ret y /\ map_result f xs = Ret ys' /\ ys = y :: ys'.
Proof.
  cbn [map_result]. destruct (f x) as [y|e]; cbn; [|discriminate].
  destruct (map_result f xs) as [ys'|e]; cbn; [|discriminate].
  intros [= <-]. eauto.
Qed.

Lemma sleep_secs_at_ret (firstObsTime programStart : datetime)
      (speedFactor : float) (obs_time now : datetime) :
  Float.is_zero speedFactor = false ->
  exists secs,
    sleep_secs_at firstObsTime programStart speedFactor obs_time now = Ret secs.
Proof.
  intros H. unfold sleep_secs_at, Float.truediv. rewrite H. cbn. eauto.
Qed.

Section Completion.

Context {J : JsonText} {L : PyLib}.

(** The law of the JSON library the script relies on when it logs a
    flush: a dumped object loads back. *)
Hypothesis json_round_trip : forall d : dict, json_loads (json_dumps d) = Some d.

Lemma publish_converted_ok (topic : str) (line0 : bytes) (e0 : json_text)
      (rest : list json_text) (w : world) :
  convert_csv_to_json line0 = Ret e0 ->
  exists s,
    decode_utf8 line0 = Some s
    /\ publish topic (e0 :: rest) w
       = (Ret tt,
          add_traces (flush_trace topic (e0 :: rest)
                                  (VStr (hd EmptyString (split "," s)))) w).
Proof.
  intros Hc.
  destruct (convert_ret_inv line0 e0 Hc)
    as (s & f0 & f1 & f2 & f3 & f4 & f5 & f6 & extra & lat & lon & fid
        & lane & speed & Hdec & Hs & _ & _ & _ & _ & _ & ->).
  exists s. split; [exact Hdec|].
  rewrite publish_cons, json_round_trip, Hs. reflexivity.
Qed.

(** X9. A flush of encoded rows goes through and says what it sends: for a
    batch whose first element is the encoded form of a row, [publish]
    prints that element, logs the size of the batch together with the
    first field of that row (its timestamp text), publishes every element
    of the batch once, in order, on the topic, and returns. *)
Theorem publish_converted_batch (topic : str) (line0 : bytes)
        (e0 : json_text) (rest : list json_text) (w : world) :
  convert_csv_to_json line0 = Ret e0 ->
  exists s,
    decode_utf8 line0 = Some s
    /\ publish topic (e0 :: rest) w
       = (Ret tt,
          add_traces
            (Print e0
             :: LoggingInfo
                  (LogPublishing (Z.of_nat (S (List.length rest)))
                                 (VStr (hd EmptyString (split "," s))))
             :: map (PublisherPublish topic) (e0 :: rest)) w).
Proof. exact (publish_converted_ok topic line0 e0 rest w). Qed.

Section Run.

Variable topic : str.
Variables firstObsTime programStart : datetime.
Variable speedFactor : float.

Hypothesis speedFactor_not_zero : Float.is_zero speedFactor = false.

Lemma for_lines_completes (lines : list bytes) :
  forall (acc : list json_text) (w : world) (ts : list datetime)
         (js : list json_text),
    acc <> [] -> Forall converted acc ->
    map_result get_timestamp lines = Ret ts ->
    map_result convert_csv_to_json lines = Ret js ->
    (forall (t : datetime) (k : nat) (d : float),
        In t ts ->
        sleep_secs_at firstObsTime programStart speedFactor t (w_clock w k)
        = Ret d ->
        Float.gt d (Float.of_int 0) = true ->
        sleep_error d = None) ->
    exists acc' w',
      for_lines (simulate_body topic firstObsTime programStart speedFactor)
                lines acc w = (Ret acc', w')
      /\ acc' <> [] /\ Forall converted acc'.
Proof.
  induction lines as [|line rest IH];
    intros acc w ts js Hne Hall Hts Hjs Hsleep.
  - exists acc, w. repeat split; trivial.
  - apply map_result_cons_inv in Hts.
    destruct Hts as (t & ts' & Ht & Hts' & ->).
    apply map_result_cons_inv in Hjs.
    destruct Hjs as (j & js' & Hj & Hjs' & _).
    rewrite for_lines_cons, simulate_body_eq, Ht.
    set (w0 := set_fpos (S (fpos (w_ifp w))) w).
    destruct (sleep_secs_at_ret firstObsTime programStart speedFactor t
                (w_clock w0 (w_ticks w0)) speedFactor_not_zero)
      as [secs ->].
    assert (Hconvj : converted j) by (now exists line).
    destruct (Float.gt secs (Float.of_int 1)).
    + destruct acc as [|e0 rest0]; [congruence|].
      inversion Hall as [|? ? [line0 Hline0] _]; subst.
      destruct (publish_converted_ok topic line0 e0 rest0 (tick w0) Hline0)
        as (s & _ & ->).
      set (w1 := add_traces _ (tick w0)).
      destruct (sleep_secs_at_ret firstObsTime programStart speedFactor t
                  (w_clock w1 (w_ticks w1)) speedFactor_not_zero)
        as [secs2 Hsecs2].
      rewrite Hsecs2.
      assert (Hacc : sleep_refusal secs2 = None).
      { unfold sleep_refusal.
        destruct (Float.gt secs2 (Float.of_int 0)) eqn:Hpos; trivial.
        rewrite (Hsleep t (w_ticks w1) secs2 (or_introl eq_refl) Hsecs2 Hpos).
        reflexivity. }
      rewrite Hacc, Hj. cbv zeta.
      apply (IH [j] _ ts' js'); trivial; [discriminate| |].
      * constructor; [exact Hconvj|constructor].
      * intros t' k d Hin. apply (Hsleep t' k d). now right.
    + rewrite Hj.
      apply (IH (acc ++ [j]) _ ts' js'); trivial.
      * intros H. apply app_eq_nil in H. destruct H. contradiction.
      * apply Forall_app. split; trivial.
        constructor; [exact Hconvj|constructor].
      * intros t' k d Hin. apply (Hsleep t' k d). now right.
Qed.

End Run.

(** X10. A run that completes. With a JSON library whose dumped objects
    load back, a non-zero speed factor, an input made of a header and at
    least one record, all records having a timestamp that parses and
    fields that convert, and every pause above zero that a record after
    the first can require at a reading of the clock being one that
    [time.sleep] accepts: [main] returns; it has then published the
    encoded form of every record, in order, on the topic of the project,
    and the input is consumed to its end. *)
Theorem main_completes (speedFactor : float) (project : str) (w : world)
        (header line0 : bytes) (rest : list bytes)
        (t0 : datetime) (ts : list datetime) (js : list json_text) :
  flines (w_ifp w) = header :: line0 :: rest ->
  map_result get_timestamp (line0 :: rest) = Ret (t0 :: ts) ->
  map_result convert_csv_to_json (line0 :: rest) = Ret js ->
  Float.is_zero speedFactor = false ->
  (forall (t : datetime) (k : nat) (d : float),
      In t ts ->
      sleep_secs_at t0 (start_time project w) speedFactor t (w_clock w k)
      = Ret d ->
      Float.gt d (Float.of_int 0) = true ->
      sleep_error d = None) ->
  exists w',
    main speedFactor project w = (Ret tt, w')
    /\ published (w_trace w')
       = published (w_trace w) ++ map (pair (topic_path project TOPIC)) js
    /\ fpos (w_ifp w') = List.length (flines (w_ifp w)).
Proof.
  intros Hfile Hts Hjs Hsf Hsleep.
  destruct (map_result_cons_inv _ _ _ _ Hts) as (t & ts' & Ht & Hts' & Heq).
  injection Heq as -> ->.
  destruct (map_result_cons_inv _ _ _ _ Hjs) as (j & js' & Hj & Hjs' & _).
  destruct (main_startup speedFactor project w header line0 rest t Hfile Ht)
    as [Hmain Hrem].
  destruct (after_startup_facts project t w) as [Hpos [Hpub _]].
  pose proof (after_startup_clock project t w) as Hclock.
  set (topic := topic_path project TOPIC) in *.
  set (ps := start_time project w) in *.
  set (w2 := after_startup project t w) in *.
  assert (Hloop : exists acc' w3,
             for_lines (simulate_body topic t ps speedFactor)
                       (line0 :: rest) [] w2 = (Ret acc', w3)
             /\ acc' <> [] /\ Forall converted acc').
  { rewrite for_lines_cons, simulate_body_eq, Ht.
    set (w0 := set_fpos (S (fpos (w_ifp w2))) w2).
    destruct (sleep_secs_at_ret t ps speedFactor t
                (w_clock w0 (w_ticks w0)) Hsf) as [secs Hsecs].
    rewrite Hsecs, (first_record_no_flush _ _ _ _ _ Hsecs), Hj.
    cbn [app].
    apply (for_lines_completes topic t ps speedFactor Hsf rest [j] _ ts' js');
      trivial; [discriminate| |].
    - constructor; [now exists line0|constructor].
    - intros t' k d Hin. subst w0.
      cbn [w_clock tick set_ticks set_fpos]. rewrite Hclock.
      now apply (Hsleep t' k d). }
  destruct Hloop as (acc' & w3 & Hloop & Hne & Hall).
  pose proof (for_lines_pass_through topic t ps speedFactor
                (line0 :: rest) [] acc' w2 w3 Hloop) as (js0 & Hjs0 & Hp).
  rewrite Hjs in Hjs0. injection Hjs0 as <-.
  pose proof (for_lines_position topic t ps speedFactor (line0 :: rest) [] w2)
    as Hposn.
  cbv zeta in Hposn. rewrite Hloop in Hposn. cbn [fst snd] in Hposn.
  destruct Hposn as [_ [_ [_ Heq]]]. specialize (Heq acc' eq_refl).
  destruct acc' as [|e0 rest0]; [congruence|].
  inversion Hall as [|? ? [l0 Hl0] _]; subst.
  destruct (publish_converted_ok topic l0 e0 rest0 w3 Hl0) as (s & _ & Hpubl).
  eexists. split; [|split].
  - rewrite Hmain. unfold simulate, bind, for_line_in_ifp.
    rewrite Hrem, Hloop. exact Hpubl.
  - cbn [add_traces w_trace].
    rewrite published_app, published_flush_trace, Hp, Hpub. reflexivity.
  - cbn [add_traces w_ifp]. rewrite Heq, Hpos, Hfile. reflexivity.
Qed.

End Completion.

Lemma publish_converted_batch_witness :
  (forall d : dict,
      json_loads (PyLib := PyRef.lib) (json_dumps (PyLib := PyRef.lib) d)
      = Some d)
  /\ convert_csv_to_json (L := PyRef.lib) Example.rec0 = Ret Example.json0
  /\ exists s,
      decode_utf8 (PyLib := PyRef.lib) Example.rec0 = Some s
      /\ publish (L := PyRef.lib) Example.topic
                 [Example.json0; Example.json1]
                 (Example.start Example.frozen [] 0)
         = (Ret tt,
            add_traces
              (Print Example.json0
               :: LoggingInfo
                    (LogPublishing 2 (VStr (hd EmptyString (split "," s))))
               :: map (PublisherPublish Example.topic)
                      [Example.json0; Example.json1])
              (Example.start Example.frozen [] 0)).
Proof.
  assert (H : convert_csv_to_json (L := PyRef.lib) Example.rec0
              = Ret Example.json0) by (vm_compute; reflexivity).
  split; [intros d; reflexivity|]. split; [exact H|].
  exact (publish_converted_batch (L := PyRef.lib) (fun d => eq_refl)
           Example.topic Example.rec0 Example.json0 [Example.json1]
           (Example.start Example.frozen [] 0) H).
Defined.

Lemma main_completes_witness :
  let lines := [Example.header; Example.rec0; Example.rec1; Example.rec2] in
  let w := Example.start Example.frozen lines 0 in
  (forall d : dict,
      json_loads (PyLib := PyRef.lib) (json_dumps (PyLib := PyRef.lib) d)
      = Some d)
  /\ flines (w_ifp w)
     = Example.header :: Example.rec0 :: [Example.rec1; Example.rec2]
  /\ map_result (get_timestamp (L := PyRef.lib))
                (Example.rec0 :: [Example.rec1; Example.rec2])
     = Ret [Example.T; Example.T_plus 1; Example.T_plus 2]
  /\ map_result (convert_csv_to_json (L := PyRef.lib))
                (Example.rec0 :: [Example.rec1; Example.rec2])
     = Ret [Example.json0; Example.json1; Example.json2]
  /\ Float.is_zero Example.one = false
  /\ (forall (t : datetime) (k : nat) (d : float),
         In t [Example.T_plus 1; Example.T_plus 2] ->
         sleep_secs_at Example.T (start_time (J := PyRef.json) Example.project w)
                       Example.one t (w_clock w k)
         = Ret d ->
         Float.gt d (Float.of_int 0) = true ->
         sleep_error (PyLib := PyRef.lib) d = None)
  /\ exists w',
      main (L := PyRef.lib) Example.one Example.project w = (Ret tt, w')
      /\ published (w_trace w')
         = published (w_trace w)
           ++ map (pair (topic_path Example.project TOPIC))
                  [Example.json0; Example.json1; Example.json2]
      /\ fpos (w_ifp w') = List.length (flines (w_ifp w)).
Proof.
  cbv zeta.
  assert (Hts : map_result (get_timestamp (L := PyRef.lib))
                  (Example.rec0 :: [Example.rec1; Example.rec2])
                = Ret [Example.T; Example.T_plus 1; Example.T_plus 2])
    by (vm_compute; reflexivity).
  assert (Hjs : map_result (convert_csv_to_json (L := PyRef.lib))
                  (Example.rec0 :: [Example.rec1; Example.rec2])
                = Ret [Example.json0; Example.json1; Example.json2])
    by (vm_compute; reflexivity).
  assert (Hsleep :
            forall (t : datetime) (k : nat) (d : float),
              In t [Example.T_plus 1; Example.T_plus 2] ->
              sleep_secs_at Example.T
                (start_time (J := PyRef.json) Example.project
                   (Example.start Example.frozen
                      [Example.header; Example.rec0; Example.rec1;
                       Example.rec2] 0))
                Example.one t
                (w_clock (Example.start Example.frozen
                            [Example.header; Example.rec0; Example.rec1;
                             Example.rec2] 0) k)
              = Ret d ->
              Float.gt d (Float.of_int 0) = true ->
              sleep_error (PyLib := PyRef.lib) d = None).
  { intros t k d [<-|[<-|[]]] Hd _; vm_compute in Hd;
      injection Hd as <-; vm_compute; reflexivity. }
  split; [intros d; reflexivity|]. split; [reflexivity|].
  split; [exact Hts|]. split; [exact Hjs|]. split; [reflexivity|].
  split; [exact Hsleep|].
  exact (main_completes (L := PyRef.lib) (fun d => eq_refl)
           Example.one Example.project
           (Example.start Example.frozen
              [Example.header; Example.rec0; Example.rec1; Example.rec2] 0)
           Example.header Example.rec0 [Example.rec1; Example.rec2]
           Example.T [Example.T_plus 1; Example.T_plus 2]
           [Example.json0; Example.json1; Example.json2]
           eq_refl Hts Hjs eq_refl Hsleep).
Defined.

(** ** Start-up of [main] *)

Section MainStartup.

Context {J : JsonText} {L : PyLib}.

Lemma ensure_topic_topics (event_type : str) (w : world) :
  let w1 := snd (ensure_topic event_type w) in
  In event_type (w_topics w1)
  /\ (forall t, In t (w_topics w) -> In t (w_topics w1))
  /\ created (w_trace w1)
     = created (w_trace w)
       ++ (if existsb (String.eqb event_type) (w_topics w) then []
           else [event_type])
  /\ w_clock w1 = w_clock w
  /\ w_ticks w1 = w_ticks w.
Proof.
  cbv zeta. unfold ensure_topic.
  destruct (existsb (String.eqb event_type) (w_topics w)) eqn:Hex.
  - cbn. rewrite created_app. cbn. repeat split; trivial.
    apply existsb_exists in Hex. destruct Hex as [t [Hin Heq]].
    apply String.eqb_eq in Heq. now subst t.
  - cbn. rewrite !created_app. cbn. rewrite <- app_assoc.
    repeat split; auto.
Qed.

(** How [main] ends on an input without a record. *)
Lemma main_without_record (speedFactor : float) (project : str) (w : world)
      (e : exn) :
  (List.length (flines (w_ifp w)) <= 1)%nat ->
  get_timestamp EmptyString = Raise e ->
  exists p,
    main speedFactor project w
    = (Raise e,
       set_fpos p (tick (snd (ensure_topic (topic_path project TOPIC) w)))).
Proof.
  intros Hlen Hempty.
  destruct (ensure_topic_ok (topic_path project TOPIC) w) as [Hok [Hifp _]].
  unfold main. unfold bind at 1.
  destruct (ensure_topic (topic_path project TOPIC) w) as [r w1].
  cbn [fst snd] in *. subst r.
  unfold bind at 1, utcnow at 1.
  unfold bind at 1, ifp_seek at 1.
  unfold bind at 1, ifp_readline at 1.
  cbn [w_ifp set_fpos set_ticks fpos flines].
  rewrite Hifp.
  destruct (flines (w_ifp w)) as [|header [|line0 rest]] eqn:Hfile;
    [| |cbn in Hlen; lia]; cbn [nth_error]; unfold bind at 1;
    rewrite peek_timestamp_eq; unfold remaining;
    cbn [w_ifp set_fpos set_ticks fpos flines];
    rewrite ?Hifp, ?Hfile; cbn [skipn hd]; rewrite Hempty.
  - exists 0%nat. reflexivity.
  - exists 1%nat. unfold tick, set_fpos, set_ticks. cbn.
    rewrite Hifp, Hfile. reflexivity.
Qed.

(** X12. An input without a record. When the input is empty or holds
    only its header, and the empty line has no timestamp, [main] fails
    with the error of [get_timestamp] on the empty line, raised while
    peeking: nothing has been published or slept, and [simulate] has not
    been entered (the clock has been read once, for the start time). *)
Theorem main_without_record_fails (speedFactor : float) (project : str)
        (w : world) (e : exn) :
  (List.length (flines (w_ifp w)) <= 1)%nat ->
  get_timestamp EmptyString = Raise e ->
  let out := main speedFactor project w in
  fst out = Raise e
  /\ published (w_trace (snd out)) = published (w_trace w)
  /\ sleeps (w_trace (snd out)) = sleeps (w_trace w)
  /\ w_ticks (snd out) = S (w_ticks w).
Proof.
  intros Hlen Hempty. cbv zeta.
  destruct (main_without_record speedFactor project w e Hlen Hempty)
    as [p ->].
  destruct (ensure_topic_ok (topic_path project TOPIC) w)
    as (_ & _ & Hp & Hs).
  destruct (ensure_topic_topics (topic_path project TOPIC) w)
    as (_ & _ & _ & _ & Htk).
  cbv zeta in Htk.
  cbn [fst snd set_fpos tick set_ticks w_trace w_ticks].
  rewrite Hp, Hs, Htk. auto.
Qed.

End MainStartup.

Lemma main_without_record_fails_witness :
  let w := Example.start Example.frozen [Example.header] 0 in
  (List.length (flines (w_ifp w)) <= 1)%nat
  /\ get_timestamp (L := PyRef.lib) EmptyString = Raise ValueError
  /\ fst (main (L := PyRef.lib) Example.one Example.project w)
     = Raise ValueError
  /\ published (w_trace (snd (main (L := PyRef.lib) Example.one
                                   Example.project w)))
     = [].
Proof.
  cbv zeta.
  assert (Hlen : (List.length
                    (flines (w_ifp (Example.start Example.frozen
                                      [Example.header] 0))) <= 1)%nat)
    by (cbn; lia).
  pose proof (main_without_record_fails (L := PyRef.lib) Example.one
                Example.project
                (Example.start Example.frozen [Example.header] 0)
                ValueError Hlen pyref_empty_line_has_no_timestamp) as H.
  cbv zeta in H. destruct H as (Hr & Hp & _).
  split; [exact Hlen|].
  split; [exact pyref_empty_line_has_no_timestamp|].
  split; [exact Hr | exact Hp].
Defined.

Lemma main_never_flushes_empty_witness :
  (exists e, get_timestamp (L := PyRef.lib) EmptyString = Raise e)
  /\ (fst (main (L := PyRef.lib) Example.one Example.project
                (Example.start Example.frozen
                   [Example.header; Example.rec0; Example.rec1; Example.rec2]
                   0))
      = Raise IndexError -> False).
Proof.
  split.
  - exists ValueError. exact pyref_empty_line_has_no_timestamp.
  - exact (main_never_flushes_empty (L := PyRef.lib) Example.one
             Example.project
             (Example.start Example.frozen
                [Example.header; Example.rec0; Example.rec1; Example.rec2] 0)
             (ex_intro _ ValueError pyref_empty_line_has_no_timestamp)).
Defined.

(** ** A speed factor that is not a number *)


